(** * dock_variants.py: docking and scoring of PAM variants

    A shallow embedding of
    [models/tridimensional/docking_validation/dock_variants.py]
    (Python 2: [print] is a statement and [/] on integers is floor
    division).  The script is glue around an external simulation toolkit,
    the file system and the clock; these are the [host] of the script and
    are kept abstract.  The script itself is embedded in a state and
    exception monad over a [world] that records the files, the standard
    output and the trace of external calls. *)

From Stdlib Require Import ZArith Lia Ascii String.
From stdpp Require Import base gmap strings list.

Local Open Scope string_scope.
Local Open Scope list_scope.
Local Open Scope Z_scope.

(** ** Python values and exceptions *)

(** The exceptions a run of the script can end in.  [ToolkitError] is an
    exception raised inside the simulation toolkit, [ResultsCsvError] one
    raised inside the [results_csv] module, [OSError] the error of an
    operating-system call, and [RaisedObject] an object that a statement of
    the script raises; the others are raised by the interpreter on behalf of
    a statement of the script. *)
Inductive exn :=
| AssertionError
| IndexError
| TypeError
| NameError (name : string)
| UnboundLocalError (name : string)
| ToolkitError (msg : string)
| ResultsCsvError (msg : string)
| OSError
| RaisedObject (repr : string).

(** The result of evaluating an expression or running a statement. *)
Inductive outcome (A : Type) :=
| Ret (a : A)
| Raise (e : exn).
Arguments Ret {A} a.
Arguments Raise {A} e.

(** The result of an external call: a value, or a failure with its message. *)
Inductive res (A : Type) :=
| ok (a : A)
| failed (msg : string).
Arguments ok {A} a.
Arguments failed {A} msg.

(** The values a command-line switch can take after parsing: the default
    and the [const] are booleans, an explicit value goes through [type=str]. *)
Inductive pyval :=
| PyBool (b : bool)
| PyStr (s : string).

(** Truth value testing, as [if x:] does it: a string is true unless empty. *)
Definition truthy (v : pyval) : bool :=
  match v with
  | PyBool b => b
  | PyStr s => negb (String.eqb s "")
  end.

(** [x <= y] of Python 2 on an integer or [None]: [None] sorts before
    every integer. *)
Definition py_le (x y : option Z) : bool :=
  match x, y with
  | None, _ => true
  | Some _, None => false
  | Some a, Some b => a <=? b
  end.

(** [range(a, b)] on integers: [a], [a + 1], ... up to [b - 1], empty when
    [b <= a]. *)
Definition py_range (a b : Z) : list Z := seqZ a (b - a).

(** [s[k]] on a string: negative indices count from the end, anything
    outside [-len(s) .. len(s) - 1] raises [IndexError]. *)
Definition str_index (s : string) (k : Z) : outcome string :=
  let n := Z.of_nat (String.length s) in
  let k' := if k <? 0 then k + n else k in
  if (0 <=? k') && (k' <? n) then
    match String.get (Z.to_nat k') s with
    | Some c => Ret (String c "")
    | None => Raise IndexError
    end
  else Raise IndexError.

(** [l[k]] on a list, for the non-negative literal indices the script uses. *)
Definition list_index {A} (l : list A) (k : nat) : outcome A :=
  match l !! k with
  | Some x => Ret x
  | None => Raise IndexError
  end.

Definition os_sep : string := "/".

(** [os.path.join(a, *p)] of [posixpath]: a component that starts with a
    slash restarts the path, otherwise it is appended, after a slash unless
    the path so far is empty or already ends in one. *)
Definition starts_with_sep (b : string) : bool :=
  match b with
  | String c _ => Ascii.eqb c "/"%char
  | EmptyString => false
  end.

Fixpoint ends_with_sep (a : string) : bool :=
  match a with
  | EmptyString => false
  | String c EmptyString => Ascii.eqb c "/"%char
  | String _ rest => ends_with_sep rest
  end.

Definition join_step (path b : string) : string :=
  if starts_with_sep b then b
  else if String.eqb path "" || ends_with_sep path then path +:+ b
  else path +:+ "/" +:+ b.

Definition os_path_join (a : string) (p : list string) : string :=
  fold_left join_step p a.
Arguments os_path_join : simpl never.

(** ** The script's constants *)

Definition dna_nts : string := "acgt".
Definition programs : list string := ["Chimera"; "3DNA"].

(** Line 91: [dna_nts[i / 16] + dna_nts[i / 4 % 4] + dna_nts[i % 4]],
    evaluated left to right. *)
Definition bind_outcome {A B} (o : outcome A) (k : A -> outcome B) : outcome B :=
  match o with
  | Ret a => k a
  | Raise e => Raise e
  end.

Definition variant (i : Z) : outcome string :=
  bind_outcome (str_index dna_nts (i / 16)) (fun a =>
  bind_outcome (str_index dna_nts (i / 4 mod 4)) (fun b =>
  bind_outcome (str_index dna_nts (i mod 4)) (fun c =>
  Ret (a +:+ b +:+ c)))).

(** ** The host of the script

    Everything the script calls and does not define: the simulation toolkit
    (reached through [from rosetta import *]), the floating-point numbers of
    the interpreter with the [%8.3f] conversion, the clock, and the
    [results_csv] module.  Toolkit objects are handles into the toolkit's own
    state, so a pose changed by the docking protocol is the same pose
    afterwards with another conformation behind it. *)
Class host := Host {
  tk_state : Type;
  pose : Type;
  scorefxn : Type;
  protocol : Type;
  score_type : Type;
  pyfloat : Type;
  fa_elec : score_type;
  tk_init : string -> tk_state -> res unit * tk_state;
  tk_pose_from_pdb : string -> tk_state -> res pose * tk_state;
  tk_get_fa_scorefxn : tk_state -> res scorefxn * tk_state;
  tk_create_score_function : string -> tk_state -> res scorefxn * tk_state;
  tk_set_weight : scorefxn -> score_type -> Z -> tk_state -> res unit * tk_state;
  tk_DockMCMProtocol : tk_state -> res protocol * tk_state;
  tk_set_scorefxn : protocol -> scorefxn -> tk_state -> res unit * tk_state;
  tk_set_scorefxn_pack : protocol -> scorefxn -> tk_state -> res unit * tk_state;
  tk_set_partners : protocol -> string -> tk_state -> res unit * tk_state;
  tk_score : scorefxn -> pose -> tk_state -> res pyfloat * tk_state;
  tk_apply : protocol -> pose -> tk_state -> res unit * tk_state;
  (** what the name [exception] is bound to by the star import, if anything:
      the exception that [raise exception(msg)] then ends in *)
  star_exception : option (string -> exn);
  (** ["%8.3f" % x] *)
  fmt_8_3f : pyfloat -> string;
  float_sub : pyfloat -> pyfloat -> pyfloat;
  (** the n-th reading of the clock, by [time()] and by
      [datetime.datetime.now().strftime("%Y-%m-%d %I.%M.%S%p")] *)
  clock_time : nat -> pyfloat;
  clock_stamp : nat -> string;
  (** [results_csv.results_to_csv(path)], on the files *)
  csv_results_to_csv : string -> gmap string string -> res (gmap string string);
  (** whether the operating system refuses to make a directory at this path,
      given the files and the directories there are (no permission, a file
      in the way, a name too long) *)
  os_refuses_makedirs : string -> gmap string string -> gset string -> bool
}.

(** The external calls of a run, in order, with what each returned. *)
Inductive event `{host} :=
| ev_init (opts : string) (r : res unit)
| ev_pose_from_pdb (path : string) (r : res pose)
| ev_get_fa_scorefxn (r : res scorefxn)
| ev_create_score_function (name : string) (r : res scorefxn)
| ev_set_weight (f : scorefxn) (t : score_type) (v : Z) (r : res unit)
| ev_DockMCMProtocol (r : res protocol)
| ev_set_scorefxn (d : protocol) (f : scorefxn) (r : res unit)
| ev_set_scorefxn_pack (d : protocol) (f : scorefxn) (r : res unit)
| ev_set_partners (d : protocol) (partners : string) (r : res unit)
| ev_score (f : scorefxn) (p : pose) (r : res pyfloat)
| ev_apply (d : protocol) (p : pose) (r : res unit)
| ev_open_append (path : string)
| ev_makedirs (path : string)
| ev_results_to_csv (path : string) (r : res unit).

(** The state a run threads: the toolkit's state, the files (path to
    content) and directories, the lines printed, the trace of external calls
    and the number of clock readings taken. *)
Record world `{host} := World {
  w_toolkit : tk_state;
  w_fs : gmap string string;
  w_dirs : gset string;
  w_stdout : list string;
  w_trace : list event;
  w_clock : nat
}.

(** ** The monad of the script: state and exceptions *)

Definition M `{host} (A : Type) : Type := world -> outcome A * world.

Definition ret `{host} {A} (a : A) : M A := fun w => (Ret a, w).

Definition raise `{host} {A} (e : exn) : M A := fun w => (Raise e, w).

Definition bind `{host} {A B} (m : M A) (k : A -> M B) : M B :=
  fun w =>
    match m w with
    | (Ret a, w') => k a w'
    | (Raise e, w') => (Raise e, w')
    end.

Definition lift `{host} {A} (o : outcome A) : M A := fun w => (o, w).

Declare Scope script_scope.
Delimit Scope script_scope with script.
Notation "'let*' x := c1 'in' c2" := (bind c1 (fun x => c2))
  (at level 10, x name, c1 at level 100, c2 at level 200) : script_scope.
Notation "c1 ;; c2" := (bind c1 (fun _ => c2))
  (at level 100, c2 at level 200, right associativity) : script_scope.
Local Open Scope script_scope.

(** A call into the toolkit: runs it on the toolkit's state, logs it with
    its result, and propagates a failure as [ToolkitError]. *)
Definition after_call `{host} (w : world) (s : tk_state) (e : event) : world :=
  World _ s (w_fs w) (w_dirs w) (w_stdout w) (w_trace w ++ [e]) (w_clock w).

Definition call `{host} {A} (op : tk_state -> res A * tk_state)
    (log : res A -> event) : M A :=
  fun w =>
    let '(r, s) := op (w_toolkit w) in
    match r with
    | ok a => (Ret a, after_call w s (log r))
    | failed msg => (Raise (ToolkitError msg), after_call w s (log r))
    end.

(** The [print] statement: one more line on the standard output. *)
Definition printed `{host} (line : string) (w : world) : world :=
  World _ (w_toolkit w) (w_fs w) (w_dirs w) (w_stdout w ++ [line]) (w_trace w)
    (w_clock w).

Definition print `{host} (line : string) : M unit :=
  fun w => (Ret tt, printed line w).

(** A reading of the clock. *)
Definition tick `{host} (w : world) : world :=
  World _ (w_toolkit w) (w_fs w) (w_dirs w) (w_stdout w) (w_trace w)
    (S (w_clock w)).

(** [time()]: the next reading of the clock. *)
Definition time `{host} : M pyfloat :=
  fun w => (Ret (clock_time (w_clock w)), tick w).

(** [datetime.datetime.now().strftime(...)]: the next reading, formatted. *)
Definition now_strftime `{host} : M string :=
  fun w => (Ret (clock_stamp (w_clock w)), tick w).

Definition set_fs `{host} (fs : gmap string string) (w : world) : world :=
  World _ (w_toolkit w) fs (w_dirs w) (w_stdout w) (w_trace w) (w_clock w).

Definition log_event `{host} (e : event) (w : world) : world :=
  World _ (w_toolkit w) (w_fs w) (w_dirs w) (w_stdout w) (w_trace w ++ [e])
    (w_clock w).

(** The content of a file, empty when there is none yet. *)
Definition content (fs : gmap string string) (path : string) : string :=
  default "" (fs !! path).

(** [open(path, 'a')]: the file is created empty when it does not exist and
    is left as it is otherwise; the handle is the path. *)
Definition open_append `{host} (path : string) : M string :=
  fun w =>
    (Ret path,
     log_event (ev_open_append path)
       (set_fs (<[path := content (w_fs w) path]> (w_fs w)) w)).

(** [f.write(text)] on a file opened for appending. *)
Definition file_write `{host} (f : string) (text : string) : M unit :=
  fun w => (Ret tt, set_fs (<[f := content (w_fs w) f +:+ text]> (w_fs w)) w).

Definition file_close `{host} (f : string) : M unit := ret tt.

(** [os.path.exists(path)]: nothing exists at the empty path; elsewhere a
    directory or a file may. *)
Definition os_path_exists `{host} (path : string) : M bool :=
  fun w =>
    (Ret (negb (String.eqb path "")
          && (bool_decide (path ∈ w_dirs w)
              || bool_decide (is_Some (w_fs w !! path)))), w).

(** [os.makedirs(path)]: raises [OSError] for the empty path, for a path
    where a directory or a file stands already, and wherever the operating
    system refuses; makes the directory otherwise. *)
Definition os_makedirs `{host} (path : string) : M unit :=
  fun w =>
    if String.eqb path ""
       || (bool_decide (path ∈ w_dirs w) || bool_decide (is_Some (w_fs w !! path)))
       || os_refuses_makedirs path (w_fs w) (w_dirs w)
    then (Raise OSError, w)
    else
      (Ret tt,
       log_event (ev_makedirs path)
         (World _ (w_toolkit w) (w_fs w) ({[path]} ∪ w_dirs w) (w_stdout w)
            (w_trace w) (w_clock w))).

(** [assert cond] *)
Definition assert_ `{host} (cond : bool) : M unit :=
  if cond then ret tt else raise AssertionError.

(** Reading a local variable that may not have been assigned yet. *)
Definition read_local `{host} {A} (name : string) (v : option A) : M A :=
  match v with
  | Some a => ret a
  | None => raise (UnboundLocalError name)
  end.

(** ** The toolkit's functions, as the script calls them *)

Definition init `{host} (extra_options : string) : M unit :=
  call (tk_init extra_options) (ev_init extra_options).

Definition pose_from_pdb `{host} (path : string) : M pose :=
  call (tk_pose_from_pdb path) (ev_pose_from_pdb path).

Definition get_fa_scorefxn `{host} : M scorefxn :=
  call tk_get_fa_scorefxn ev_get_fa_scorefxn.

Definition create_score_function `{host} (name : string) : M scorefxn :=
  call (tk_create_score_function name) (ev_create_score_function name).

Definition set_weight `{host} (f : scorefxn) (t : score_type) (v : Z) : M unit :=
  call (tk_set_weight f t v) (ev_set_weight f t v).

Definition DockMCMProtocol `{host} : M protocol :=
  call tk_DockMCMProtocol ev_DockMCMProtocol.

Definition set_scorefxn `{host} (d : protocol) (f : scorefxn) : M unit :=
  call (tk_set_scorefxn d f) (ev_set_scorefxn d f).

Definition set_scorefxn_pack `{host} (d : protocol) (f : scorefxn) : M unit :=
  call (tk_set_scorefxn_pack d f) (ev_set_scorefxn_pack d f).

Definition set_partners `{host} (d : protocol) (partners : string) : M unit :=
  call (tk_set_partners d partners) (ev_set_partners d partners).

(** [f(pose)] for a score function [f] *)
Definition score `{host} (f : scorefxn) (p : pose) : M pyfloat :=
  call (tk_score f p) (ev_score f p).

(** [docking.apply(pose)] *)
Definition apply_protocol `{host} (d : protocol) (p : pose) : M unit :=
  call (tk_apply d p) (ev_apply d p).

(** [results_to_csv(path)] of the [results_csv] module. *)
Definition results_to_csv `{host} (path : string) : M unit :=
  fun w =>
    match csv_results_to_csv path (w_fs w) with
    | ok fs => (Ret tt, log_event (ev_results_to_csv path (ok tt)) (set_fs fs w))
    | failed msg =>
        (Raise (ResultsCsvError msg),
         log_event (ev_results_to_csv path (failed msg)) w)
    end.

(** ** The script *)

(** The line feed that ends each line written. *)
Definition nl : string := String "010"%char EmptyString.

(** Lines 16 to 32. *)
Definition write_dock_stats `{host} (score_directory filename : string)
    (dock_stats : list pyfloat) (time_diff : pyfloat) : M unit :=
  let path := os_path_join score_directory [filename] in
  let* f := open_append path in
  let* x0 := lift (list_index dock_stats 0) in
  file_write f ("Initial DNA score: " +:+ fmt_8_3f x0 +:+ nl) ;;
  let* x1 := lift (list_index dock_stats 1) in
  file_write f ("Final DNA Score: " +:+ fmt_8_3f x1 +:+ nl) ;;
  let* x2 := lift (list_index dock_stats 2) in
  file_write f ("Initial FA score: " +:+ fmt_8_3f x2 +:+ nl) ;;
  let* x3 := lift (list_index dock_stats 3) in
  file_write f ("Final FA score: " +:+ fmt_8_3f x3 +:+ nl) ;;
  file_write f ("Total variant time: " +:+ fmt_8_3f time_diff +:+ nl) ;;
  file_close f.

(** Lines 35 to 65. *)
Definition dock_simple `{host} (p : pose) : M (list pyfloat) :=
  let* fa_score := get_fa_scorefxn in
  let* dna_score := create_score_function "dna" in
  set_weight dna_score fa_elec 1 ;;
  let* docking := DockMCMProtocol in
  set_scorefxn docking dna_score ;;
  set_scorefxn_pack docking fa_score ;;
  set_partners docking "B_ACD" ;;
  let* dna_init := score dna_score p in
  let* fa_init := score fa_score p in
  apply_protocol docking p ;;
  let* dna_final := score dna_score p in
  let* fa_final := score fa_score p in
  ret [dna_init; dna_final; fa_init; fa_final].

(** Line 75, [raise exception("Complex docking not implemented")]: the name
    [exception] is neither defined in the module nor a builtin, so it is
    bound only if the star import binds it. *)
Definition complex_not_implemented `{host} : exn :=
  match star_exception with
  | None => NameError "exception"
  | Some mk => mk "Complex docking not implemented"
  end.

(** Lines 68 to 75. *)
Definition dock_complex `{host} (p : pose) : M (list pyfloat) :=
  raise complex_not_implemented.

(** A [for] loop whose body may assign local variables: the locals are
    threaded from one iteration to the next. *)
Fixpoint for_each `{host} {A L} (xs : list A) (body : A -> L -> M L)
    (locals : L) : M L :=
  match xs with
  | [] => ret locals
  | x :: rest => let* l := body x locals in for_each rest body l
  end.

(** Lines 93 to 106, the body of the inner loop.  The local [dock_stats] is
    assigned on the simple branch only; the other branch calls
    [complex_impl] and drops what it returns. *)
Definition dock_program `{host} (complex_impl : pose -> M (list pyfloat))
    (path_to_scores path_to_pdbs : string) (complex_docking_flag : pyval)
    (variant program : string) (dock_stats : option (list pyfloat))
    : M (option (list pyfloat)) :=
  print ("Running for variant: " +:+ variant +:+ "_" +:+ program) ;;
  let pdb_path :=
    os_path_join path_to_pdbs [program; "4UN3." +:+ variant +:+ ".pdb"] in
  let* time_init := time in
  let* loaded_pose := pose_from_pdb pdb_path in
  let* dock_stats :=
    (if truthy complex_docking_flag
     then complex_impl loaded_pose ;; ret dock_stats
     else let* l := dock_simple loaded_pose in ret (Some l)) in
  let* time_final := time in
  let results_filename := variant +:+ "_" +:+ program +:+ ".txt" in
  let* stats := read_local "dock_stats" dock_stats in
  write_dock_stats path_to_scores results_filename stats
    (float_sub time_final time_init) ;;
  print ("Finished writing scores for variant: " +:+ variant +:+ "_" +:+ program) ;;
  ret dock_stats.

(** Lines 91 to 106, the body of the outer loop. *)
Definition dock_variant `{host} (complex_impl : pose -> M (list pyfloat))
    (path_to_scores path_to_pdbs : string) (complex_docking_flag : pyval)
    (i : Z) (dock_stats : option (list pyfloat)) : M (option (list pyfloat)) :=
  let* v := lift (variant i) in
  for_each programs
    (dock_program complex_impl path_to_scores path_to_pdbs
       complex_docking_flag v)
    dock_stats.

(** Lines 78 to 107, over the function called on the complex branch; no
    local is assigned when the loop starts. *)
Definition dock_variants_with `{host} (complex_impl : pose -> M (list pyfloat))
    (pam_variants : list Z) (path_to_scores path_to_pdbs : string)
    (complex_docking_flag : pyval) : M unit :=
  for_each pam_variants
    (dock_variant complex_impl path_to_scores path_to_pdbs complex_docking_flag)
    None ;;
  ret tt.

(** [dock_variants], with [dock_complex] on the complex branch. *)
Definition dock_variants `{host} (pam_variants : list Z)
    (path_to_scores path_to_pdbs : string) (complex_docking_flag : pyval)
    : M unit :=
  dock_variants_with dock_complex pam_variants path_to_scores path_to_pdbs
    complex_docking_flag.

(** ** The entry point *)

(** How a switch declared with [nargs='?'] stands on the command line:
    absent, bare, or with a value ([--complex VALUE] or [--complex=VALUE],
    the second also for an empty value). *)
Inductive switch :=
| Omitted
| Bare
| Given (value : string).

(** The command line, with the integers of [-s] and [-e] already read by
    [type=int]; an option that is not given is [None]. *)
Record cmdline := Cmdline {
  cl_start : option Z;
  cl_end : option Z;
  cl_output_dir : option string;
  cl_pdb_dir : option string;
  cl_complex : switch;
  cl_csv : switch
}.

(** The namespace [parser.parse_args()] returns. *)
Record args := Args {
  a_start : option Z;
  a_end : option Z;
  a_output_dir : option string;
  a_pdb_dir : string;
  a_complex : pyval;
  a_csv : pyval
}.

(** Lines 121 to 124, [nargs='?', const=True, default=False, type=str]: the
    default when the switch is absent, the const when it is bare, and the
    value as a string otherwise. *)
Definition parse_switch (s : switch) : pyval :=
  match s with
  | Omitted => PyBool false
  | Bare => PyBool true
  | Given v => PyStr v
  end.

(** Lines 112 to 125. *)
Definition parse_args (c : cmdline) : args :=
  {| a_start := cl_start c;
     a_end := cl_end c;
     a_output_dir := cl_output_dir c;
     a_pdb_dir := default "" (cl_pdb_dir c);
     a_complex := parse_switch (cl_complex c);
     a_csv := parse_switch (cl_csv c) |}.

(** An integer operand: [None] in its place is a [TypeError]. *)
Definition int_of (v : option Z) : outcome Z :=
  match v with
  | Some z => Ret z
  | None => Raise TypeError
  end.

(** Line 128, the condition of the [assert]. *)
Definition range_check (a : args) : bool :=
  py_le (Some 0) (a_start a) && py_le (a_start a) (a_end a)
  && py_le (a_end a) (Some 63).

(** Line 129, [range(args.start, args.end + 1)]. *)
Definition pam_variants_to_score (a : args) : outcome (list Z) :=
  bind_outcome (int_of (a_end a)) (fun e =>
  bind_outcome (int_of (a_start a)) (fun s =>
  Ret (py_range s (e + 1)))).

(** Lines 132 to 137. *)
Definition scores_path `{host} (a : args) : M string :=
  match a_output_dir a with
  | Some d => ret d
  | None =>
      let* timestamp := now_strftime in
      ret ("results" +:+ os_sep +:+ timestamp +:+ os_sep)
  end.

(** Lines 131 to 147: what the script does with the indices to score. *)
Definition score_variants `{host} (pam_variants : list Z) (a : args) : M unit :=
  let* path_to_scores := scores_path a in
  let* found := os_path_exists path_to_scores in
  (if negb found then os_makedirs path_to_scores else ret tt) ;;
  init "-mute all" ;;
  dock_variants pam_variants path_to_scores (a_pdb_dir a) (a_complex a) ;;
  if truthy (a_csv a) then results_to_csv path_to_scores else ret tt.

(** Lines 110 to 147. *)
Definition main `{host} (c : cmdline) : M unit :=
  let args := parse_args c in
  assert_ (range_check args) ;;
  let* pam_variants := lift (pam_variants_to_score args) in
  score_variants pam_variants args.

(** ** Observations on a run *)

(** The number of lines of a text: its line feeds. *)
Fixpoint count_lines (s : string) : nat :=
  match s with
  | EmptyString => O
  | String c rest =>
      (if Ascii.eqb c "010"%char then 1 else 0)%nat + count_lines rest
  end.

(** The five lines [write_dock_stats] writes for four scores and a time. *)
Definition stats_lines `{host} (x0 x1 x2 x3 t : pyfloat) : list string :=
  [ "Initial DNA score: " +:+ fmt_8_3f x0 +:+ nl;
    "Final DNA Score: " +:+ fmt_8_3f x1 +:+ nl;
    "Initial FA score: " +:+ fmt_8_3f x2 +:+ nl;
    "Final FA score: " +:+ fmt_8_3f x3 +:+ nl;
    "Total variant time: " +:+ fmt_8_3f t +:+ nl ].

Definition concat_lines (ls : list string) : string :=
  fold_right String.append "" ls.

(** The conversion never puts a line feed in what it prints. *)
Definition single_line_format `{host} : Prop :=
  forall x : pyfloat, count_lines (fmt_8_3f x) = O.

(** The structure files loaded and the files opened for writing, in order. *)
Inductive io :=
| Loaded (path : string)
| Opened (path : string).

Definition io_of `{host} (e : event) : list io :=
  match e with
  | ev_pose_from_pdb path _ => [Loaded path]
  | ev_open_append path => [Opened path]
  | _ => []
  end.

Definition io_trace `{host} (evs : list event) : list io :=
  flat_map io_of evs.

(** What one (variant, program) pair loads and opens. *)
Definition pair_io (path_to_scores path_to_pdbs v program : string) : list io :=
  [ Loaded (os_path_join path_to_pdbs [program; "4UN3." +:+ v +:+ ".pdb"]);
    Opened (os_path_join path_to_scores [v +:+ "_" +:+ program +:+ ".txt"]) ].

(** Variants as the glossary describes them, to compare line 91 with: the
    nucleotide of a base-4 digit, the 3-letter strings over a, c, g and t,
    and the string of the three base-4 digits of an index. *)
Definition nt (d : Z) : ascii :=
  match d with
  | 0 => "a"
  | 1 => "c"
  | 2 => "g"
  | _ => "t"
  end%char.

Definition is_nt (c : ascii) : bool :=
  Ascii.eqb c "a" || Ascii.eqb c "c" || Ascii.eqb c "g" || Ascii.eqb c "t".

Definition is_pam (s : string) : bool :=
  match s with
  | String x (String y (String z EmptyString)) => is_nt x && is_nt y && is_nt z
  | _ => false
  end.

Definition pam_string (i : Z) : string :=
  String (nt (i / 16)) (String (nt (i / 4 mod 4)) (String (nt (i mod 4)) "")).

(** The index of a nucleotide in [dna_nts]. *)
Definition nt_index (c : ascii) : Z :=
  if Ascii.eqb c "a" then 0
  else if Ascii.eqb c "c" then 1
  else if Ascii.eqb c "g" then 2
  else 3.

(** The message of a toolkit call that failed. *)
Definition res_failure {A} (r : res A) : option string :=
  match r with
  | ok _ => None
  | failed msg => Some msg
  end.

Definition failure `{host} (e : event) : option string :=
  match e with
  | ev_init _ r => res_failure r
  | ev_pose_from_pdb _ r => res_failure r
  | ev_get_fa_scorefxn r => res_failure r
  | ev_create_score_function _ r => res_failure r
  | ev_set_weight _ _ _ r => res_failure r
  | ev_DockMCMProtocol r => res_failure r
  | ev_set_scorefxn _ _ r => res_failure r
  | ev_set_scorefxn_pack _ _ r => res_failure r
  | ev_set_partners _ _ r => res_failure r
  | ev_score _ _ r => res_failure r
  | ev_apply _ _ r => res_failure r
  | ev_open_append _ => None
  | ev_makedirs _ => None
  | ev_results_to_csv _ _ => None
  end.

(** A run ended in the exception of a toolkit call that failed: the last
    external call of the run failed, with the message the exception carries. *)
Definition toolkit_failure `{host} {A} (o : outcome A) (evs : list event) : Prop :=
  exists msg ev,
    o = Raise (ToolkitError msg) /\ last evs = Some ev /\ failure ev = Some msg.

(** What a call into the toolkit leaves alone: the files, the directories,
    the standard output and the clock. *)
Definition toolkit_frame `{host} (w w' : world) : Prop :=
  w_fs w' = w_fs w /\ w_dirs w' = w_dirs w /\ w_stdout w' = w_stdout w
  /\ w_clock w' = w_clock w.

(** No file is lost between two worlds. *)
Definition files_kept `{host} (w w' : world) : Prop :=
  forall path, is_Some (w_fs w !! path) -> is_Some (w_fs w' !! path).

(** The external calls of a successful [dock_simple] on a pose. *)
Definition dock_simple_calls `{host} (p : pose) (fa dna : scorefxn)
    (d : protocol) (dna_init dna_final fa_init fa_final : pyfloat) : list event :=
  [ ev_get_fa_scorefxn (ok fa);
    ev_create_score_function "dna" (ok dna);
    ev_set_weight dna fa_elec 1 (ok tt);
    ev_DockMCMProtocol (ok d);
    ev_set_scorefxn d dna (ok tt);
    ev_set_scorefxn_pack d fa (ok tt);
    ev_set_partners d "B_ACD" (ok tt);
    ev_score dna p (ok dna_init);
    ev_score fa p (ok fa_init);
    ev_apply d p (ok tt);
    ev_score dna p (ok dna_final);
    ev_score fa p (ok fa_final) ].

(** What [dock_variants] loads and opens for a list of indices. *)
Definition variants_io (path_to_scores path_to_pdbs : string)
    (pam_variants : list Z) : list io :=
  flat_map
    (fun i => flat_map (pair_io path_to_scores path_to_pdbs (pam_string i)) programs)
    pam_variants.

(** ** A laboratory host

    A host to run the script on: poses and score functions are named by
    strings, floats are exact thousandths printed in fixed point, the
    score of a pose falls by a quarter with every run of the protocol, the
    name [exception] is unbound, no toolkit call fails and the operating
    system refuses no directory.  [lab_fails] is the same host with
    structure files that cannot be read. *)

Definition digit (d : Z) : ascii :=
  match d with
  | 0 => "0" | 1 => "1" | 2 => "2" | 3 => "3" | 4 => "4"
  | 5 => "5" | 6 => "6" | 7 => "7" | 8 => "8" | _ => "9"
  end%char.

Fixpoint digits (fuel : nat) (n : Z) (acc : string) : string :=
  match fuel with
  | O => acc
  | S fuel' =>
      let acc' := String (digit (n mod 10)) acc in
      if n <? 10 then acc' else digits fuel' (n / 10) acc'
  end.

Definition decimal (n : Z) : string :=
  digits (S (Z.to_nat (Z.log2 n))) n "".

Fixpoint spaces (n : nat) : string :=
  match n with
  | O => ""
  | S n' => String " "%char (spaces n')
  end.

Definition pad_left (width : nat) (s : string) : string :=
  spaces (width - String.length s) +:+ s.

(** A number of thousandths in fixed point, three decimals, width 8. *)
Definition fixed_8_3 (z : Z) : string :=
  let m := Z.abs z in
  let r := m mod 1000 in
  pad_left 8
    ((if z <? 0 then "-" else "") +:+ decimal (m / 1000) +:+ "."
     +:+ String (digit (r / 100))
           (String (digit (r / 10 mod 10)) (String (digit (r mod 10)) ""))).

Definition lab_energy (f : string) (runs : nat) : Z :=
  Z.of_nat (String.length f) * 1000 - 250 * Z.of_nat runs.

Definition lab (readable : bool) : host :=
  {| tk_state := nat;
     pose := string;
     scorefxn := string;
     protocol := unit;
     score_type := unit;
     pyfloat := Z;
     fa_elec := tt;
     tk_init := fun _ s => (ok tt, s);
     tk_pose_from_pdb := fun path s =>
       (if readable then ok path else failed ("cannot read " +:+ path), s);
     tk_get_fa_scorefxn := fun s => (ok "talaris", s);
     tk_create_score_function := fun name s => (ok name, s);
     tk_set_weight := fun _ _ _ s => (ok tt, s);
     tk_DockMCMProtocol := fun s => (ok tt, s);
     tk_set_scorefxn := fun _ _ s => (ok tt, s);
     tk_set_scorefxn_pack := fun _ _ s => (ok tt, s);
     tk_set_partners := fun _ _ s => (ok tt, s);
     tk_score := fun f _ s => (ok (lab_energy f s), s);
     tk_apply := fun _ _ s => (ok tt, S s);
     star_exception := None;
     fmt_8_3f := fixed_8_3;
     float_sub := Z.sub;
     clock_time := fun n => 1500 * Z.of_nat n;
     clock_stamp := fun _ => "2015-09-01 10.00.00AM";
     csv_results_to_csv := fun _ fs => ok fs;
     os_refuses_makedirs := fun _ _ _ => false |}.

Definition lab_host : host := lab true.
Definition lab_fails : host := lab false.

(** The world before anything has run. *)
Definition fresh_world (H : host) (s : @tk_state H) : @world H :=
  @World H s ∅ ∅ [] [] O.

(** ** Further observations *)

(** How often a file was opened, in a list of loads and opens. *)
Fixpoint times_opened (path : string) (l : list io) : nat :=
  match l with
  | [] => O
  | Opened p :: rest =>
      ((if String.eqb p path then 1 else 0) + times_opened path rest)%nat
  | Loaded _ :: rest => times_opened path rest
  end.

(** Between two worlds every file kept what it held and gained, after it,
    five lines for each time the events opened it, and nothing if they did
    not open it. *)
Definition five_per_open `{host} (w w' : world) (evs : list event) : Prop :=
  forall path, exists added,
    content (w_fs w') path = content (w_fs w) path +:+ added
    /\ count_lines added = (5 * times_opened path (io_trace evs))%nat
    /\ (times_opened path (io_trace evs) = O -> added = "").

(** A run that extends the trace and keeps that invariant. *)
Definition keeps_five `{host} (w w' : world) : Prop :=
  exists evs, w_trace w' = w_trace w ++ evs /\ five_per_open w w' evs.

(** The labels of the four score lines, in the order written. *)
Definition score_labels : list string :=
  [ "Initial DNA score: "; "Final DNA Score: ";
    "Initial FA score: "; "Final FA score: " ].

(** The score lines for the scores there are, at most four. *)
Definition score_lines `{host} (dock_stats : list pyfloat) : list string :=
  zip_with (fun label x => label +:+ fmt_8_3f x +:+ nl) score_labels dock_stats.


(** * Properties *)

(** ** Variant strings *)

Lemma str_index_nt (d : Z) :
  0 <= d <= 3 -> str_index dna_nts d = Ret (String (nt d) "").
Proof.
  intros Hd.
  assert (d = 0 \/ d = 1 \/ d = 2 \/ d = 3) as [-> | [-> | [-> | ->]]] by lia;
    reflexivity.
Qed.

Lemma base4_digits (i : Z) :
  0 <= i <= 63 ->
  0 <= i / 16 <= 3 /\ 0 <= i / 4 mod 4 <= 3 /\ 0 <= i mod 4 <= 3
  /\ i = 16 * (i / 16) + 4 * (i / 4 mod 4) + i mod 4.
Proof. intros Hi. Z.div_mod_to_equations. lia. Qed.

Lemma variant_pam_string (i : Z) :
  0 <= i <= 63 -> variant i = Ret (pam_string i).
Proof.
  intros Hi. destruct (base4_digits i Hi) as (H2 & H1 & H0 & _).
  unfold variant.
  rewrite (str_index_nt _ H2), (str_index_nt _ H1), (str_index_nt _ H0).
  reflexivity.
Qed.

Lemma nt_inj (d e : Z) : 0 <= d <= 3 -> 0 <= e <= 3 -> nt d = nt e -> d = e.
Proof.
  intros Hd He.
  assert (d = 0 \/ d = 1 \/ d = 2 \/ d = 3) as [-> | [-> | [-> | ->]]] by lia;
    assert (e = 0 \/ e = 1 \/ e = 2 \/ e = 3) as [-> | [-> | [-> | ->]]] by lia;
    simpl; intros E; try reflexivity; discriminate E.
Qed.

Lemma pam_string_inj (i j : Z) :
  0 <= i <= 63 -> 0 <= j <= 63 -> pam_string i = pam_string j -> i = j.
Proof.
  intros Hi Hj E.
  destruct (base4_digits i Hi) as (I2 & I1 & I0 & Ei).
  destruct (base4_digits j Hj) as (J2 & J1 & J0 & Ej).
  unfold pam_string in E.
  inversion E as [[E2 E1 E0]].
  apply nt_inj in E2; [| assumption ..].
  apply nt_inj in E1; [| assumption ..].
  apply nt_inj in E0; [| assumption ..].
  lia.
Qed.

Lemma is_nt_index (c : ascii) :
  is_nt c = true -> 0 <= nt_index c <= 3 /\ nt (nt_index c) = c.
Proof.
  unfold is_nt, nt_index. intros H.
  destruct (Ascii.eqb c "a") eqn:Ea; [apply Ascii.eqb_eq in Ea; subst; split; [lia | reflexivity] |].
  destruct (Ascii.eqb c "c") eqn:Ec; [apply Ascii.eqb_eq in Ec; subst; split; [lia | reflexivity] |].
  destruct (Ascii.eqb c "g") eqn:Eg; [apply Ascii.eqb_eq in Eg; subst; split; [lia | reflexivity] |].
  destruct (Ascii.eqb c "t") eqn:Et; [apply Ascii.eqb_eq in Et; subst; split; [lia | reflexivity] |].
  discriminate H.
Qed.

Lemma is_pam_pam_string (i : Z) : 0 <= i <= 63 -> is_pam (pam_string i) = true.
Proof.
  intros Hi. destruct (base4_digits i Hi) as (H2 & H1 & H0 & _).
  assert (forall d, 0 <= d <= 3 -> is_nt (nt d) = true) as Hnt.
  { intros d Hd.
    assert (d = 0 \/ d = 1 \/ d = 2 \/ d = 3) as [-> | [-> | [-> | ->]]] by lia;
      reflexivity. }
  unfold pam_string, is_pam. rewrite !Hnt by assumption. reflexivity.
Qed.

(** C1. For every index from 0 to 63 line 91 evaluates, without an
    exception, to the string of the nucleotides of the three base-4 digits
    of the index; that string has three letters over a, c, g and t; two
    indices from 0 to 63 with the same string are the same index; and every
    3-letter string over a, c, g and t is the string of an index from 0 to
    63.  So the map is a bijection from the indices onto those strings. *)
Theorem variant_bijection :
  (forall i, 0 <= i <= 63 ->
     variant i = Ret (pam_string i) /\ is_pam (pam_string i) = true)
  /\ (forall i j, 0 <= i <= 63 -> 0 <= j <= 63 -> variant i = variant j -> i = j)
  /\ (forall s, is_pam s = true -> exists i, 0 <= i <= 63 /\ variant i = Ret s).
Proof.
  split; [| split].
  - intros i Hi. split; [apply variant_pam_string | apply is_pam_pam_string]; exact Hi.
  - intros i j Hi Hj E.
    rewrite (variant_pam_string i Hi), (variant_pam_string j Hj) in E.
    apply pam_string_inj; [assumption | assumption | congruence].
  - intros s Hs.
    destruct s as [| x [| y [| z [| ? ?]]]]; try discriminate Hs.
    simpl in Hs. apply andb_prop in Hs as [Hxy Hz]. apply andb_prop in Hxy as [Hx Hy].
    destruct (is_nt_index x Hx) as [Bx Ex], (is_nt_index y Hy) as [By Ey],
      (is_nt_index z Hz) as [Bz Ez].
    exists (16 * nt_index x + 4 * nt_index y + nt_index z).
    split; [lia |].
    rewrite variant_pam_string by lia. unfold pam_string.
    replace ((16 * nt_index x + 4 * nt_index y + nt_index z) / 16) with (nt_index x)
      by (Z.div_mod_to_equations; lia).
    replace ((16 * nt_index x + 4 * nt_index y + nt_index z) / 4 mod 4) with (nt_index y)
      by (Z.div_mod_to_equations; lia).
    replace ((16 * nt_index x + 4 * nt_index y + nt_index z) mod 4) with (nt_index z)
      by (Z.div_mod_to_equations; lia).
    rewrite Ex, Ey, Ez. reflexivity.
Qed.

Lemma variant_bijection_witness :
  (variant 27 = Ret (pam_string 27) /\ is_pam (pam_string 27) = true)
  /\ 27 = 27
  /\ (exists i, 0 <= i <= 63 /\ variant i = Ret "gat").
Proof.
  split; [| split].
  - apply (proj1 variant_bijection 27). lia.
  - apply (proj1 (proj2 variant_bijection) 27 27); [lia | lia | reflexivity].
  - apply (proj2 (proj2 variant_bijection) "gat"). reflexivity.
Defined.

(** ** The monad *)

Section Monad.
Context `{host}.

Lemma bind_inv {A B} (m : M A) (k : A -> M B) w o w' :
  bind m k w = (o, w') ->
  (exists a w1, m w = (Ret a, w1) /\ k a w1 = (o, w'))
  \/ (exists e, m w = (Raise e, w') /\ o = Raise e).
Proof.
  unfold bind. destruct (m w) as [[a | e] w1]; intros E.
  - left. exists a, w1. split; [reflexivity | exact E].
  - right. exists e. inversion E; subst. split; reflexivity.
Qed.

Lemma bind_Ret {A B} (m : M A) (k : A -> M B) w a w1 :
  m w = (Ret a, w1) -> bind m k w = k a w1.
Proof. unfold bind. intros ->. reflexivity. Qed.

Lemma bind_Raise {A B} (m : M A) (k : A -> M B) w e w1 :
  m w = (Raise e, w1) -> bind m k w = (Raise e, w1).
Proof. unfold bind. intros ->. reflexivity. Qed.

Lemma call_Ret_inv {A} (op : tk_state -> res A * tk_state)
    (log : res A -> event) w a w' :
  call op log w = (Ret a, w') ->
  exists s, op (w_toolkit w) = (ok a, s) /\ w' = after_call w s (log (ok a)).
Proof.
  unfold call. destruct (op (w_toolkit w)) as [[a0 | msg] s]; intros E;
    inversion E; subst. eauto.
Qed.

Lemma call_Raise_inv {A} (op : tk_state -> res A * tk_state)
    (log : res A -> event) w e w' :
  call op log w = (Raise e, w') ->
  exists msg s, op (w_toolkit w) = (failed msg, s) /\ e = ToolkitError msg
                /\ w' = after_call w s (log (failed msg)).
Proof.
  unfold call. destruct (op (w_toolkit w)) as [[a0 | msg] s]; intros E;
    inversion E; subst. eauto.
Qed.

End Monad.

(** Splits a run of [bind] into the run of its first part and, when that
    returned, the run of the rest. *)
Ltac inv_bind E :=
  let a := fresh "a" in
  let w1 := fresh "w" in
  let E1 := fresh "E" in
  apply bind_inv in E as [(a & w1 & E1 & E) | (? & E & ->)].

(** One toolkit call at the head of a run: either it returned and the run
    goes on from the world after the call, or it failed and the run ended
    there. *)
Ltac run_call E :=
  apply bind_inv in E as [(? & ? & ?E1 & E) | (? & E & ->)];
  [ match goal with
    | E1 : _ = (Ret _, _) |- _ => apply call_Ret_inv in E1 as (? & ?R & ->)
    end
  | apply call_Raise_inv in E as (? & ? & ?R & -> & ->) ].

(** ** Simple docking *)

Section DockSimple.
Context `{host}.

Lemma dock_simple_run (p : pose) (w : world) o w' :
  dock_simple p w = (o, w') ->
  toolkit_frame w w'
  /\ exists evs,
      w_trace w' = w_trace w ++ evs /\ io_trace evs = []
      /\ ((exists fa dna d dna_init dna_final fa_init fa_final,
             o = Ret [dna_init; dna_final; fa_init; fa_final]
             /\ evs = dock_simple_calls p fa dna d dna_init dna_final fa_init fa_final)
          \/ toolkit_failure o evs).
Proof.
  intros E. unfold dock_simple in E.
  do 12 (run_call E;
    [| split; [repeat split |];
       eexists; split; [cbn; rewrite <- ?app_assoc; reflexivity |];
       split; [reflexivity |]; right; do 2 eexists; repeat split ]).
  inversion E; subst; clear E.
  repeat match goal with u : unit |- _ => destruct u end.
  split; [repeat split |].
  eexists; split; [cbn; rewrite <- ?app_assoc; reflexivity |].
  split; [reflexivity |]. left. do 7 eexists. split; reflexivity.
Qed.


End DockSimple.

(** ** Writing the scores *)

Lemma append_assoc (a b c : string) : (a +:+ b) +:+ c = a +:+ (b +:+ c).
Proof.
  induction a as [| x a IH]; [reflexivity |].
  change (String x ((a +:+ b) +:+ c) = String x (a +:+ (b +:+ c))).
  rewrite IH. reflexivity.
Qed.

Lemma count_lines_append (a b : string) :
  count_lines (a +:+ b) = (count_lines a + count_lines b)%nat.
Proof.
  induction a as [| x a IH]; [reflexivity |].
  change (count_lines (String x (a +:+ b))
          = (count_lines (String x a) + count_lines b)%nat).
  simpl. rewrite IH. lia.
Qed.

Lemma content_insert (fs : gmap string string) (p c : string) :
  content (<[p := c]> fs) p = c.
Proof. unfold content. rewrite lookup_insert_eq. reflexivity. Qed.

Lemma content_insert_ne (fs : gmap string string) (p q c : string) :
  p <> q -> content (<[p := c]> fs) q = content fs q.
Proof. intros Hne. unfold content. rewrite lookup_insert_ne by exact Hne. reflexivity. Qed.

Section WriteDockStats.
Context `{host}.

Lemma write_dock_stats_run (dir file : string) (x0 x1 x2 x3 : pyfloat)
    (rest : list pyfloat) (t : pyfloat) (w : world) :
  write_dock_stats dir file (x0 :: x1 :: x2 :: x3 :: rest) t w
  = (Ret tt,
     World _ (w_toolkit w)
       (<[os_path_join dir [file] :=
            content (w_fs w) (os_path_join dir [file])
            +:+ concat_lines (stats_lines x0 x1 x2 x3 t)]> (w_fs w))
       (w_dirs w) (w_stdout w)
       (w_trace w ++ [ev_open_append (os_path_join dir [file])]) (w_clock w)).
Proof.
  unfold write_dock_stats. generalize (os_path_join dir [file]) as path.
  intros path.
  unfold bind, open_append, lift, list_index, file_write, file_close, ret,
    log_event, set_fs.
  cbn [lookup list_lookup w_fs w_toolkit w_dirs w_stdout w_trace w_clock].
  rewrite !content_insert, !insert_insert_eq.
  unfold concat_lines, stats_lines. cbn [fold_right].
  rewrite !append_assoc. reflexivity.
Qed.

Lemma stats_lines_count (x0 x1 x2 x3 t : pyfloat) :
  single_line_format ->
  Forall (fun l => count_lines l = 1%nat) (stats_lines x0 x1 x2 x3 t)
  /\ count_lines (concat_lines (stats_lines x0 x1 x2 x3 t)) = 5%nat.
Proof.
  intros Hfmt. unfold stats_lines, concat_lines. cbn [fold_right].
  split.
  - repeat constructor; rewrite !count_lines_append, Hfmt; reflexivity.
  - rewrite !count_lines_append, !Hfmt. reflexivity.
Qed.

End WriteDockStats.

(** The laboratory host prints one line per number. *)

Lemma count_lines_spaces (n : nat) : count_lines (spaces n) = O.
Proof. induction n as [| n IH]; [reflexivity | exact IH]. Qed.

Lemma count_lines_digit (d : Z) (s : string) :
  count_lines (String (digit d) s) = count_lines s.
Proof.
  unfold digit. destruct d as [| p | p]; try reflexivity.
  do 4 (try (destruct p as [p | p |]; try reflexivity)).
Qed.

Lemma count_lines_digits (fuel : nat) (n : Z) (acc : string) :
  count_lines (digits fuel n acc) = count_lines acc.
Proof.
  revert n acc. induction fuel as [| fuel IH]; intros n acc; [reflexivity |].
  cbn [digits]. destruct (n <? 10).
  - apply count_lines_digit.
  - rewrite IH. apply count_lines_digit.
Qed.

Lemma lab_single_line : @single_line_format lab_host.
Proof.
  intros z. change (count_lines (fixed_8_3 z) = O).
  unfold fixed_8_3, pad_left, decimal.
  rewrite !count_lines_append, count_lines_spaces, count_lines_digits.
  rewrite !count_lines_digit. destruct (z <? 0); reflexivity.
Qed.

Section WriteDockStatsClaims.
Context `{host}.

(** C2. Given at least four scores, and a conversion that prints no line
    feed, one call of [write_dock_stats] returns normally and leaves the
    file [os.path.join(score_directory, filename)] with its former content
    followed by five lines: the four labelled scores [dock_stats[0]] to
    [dock_stats[3]] and the labelled time, in this order, each number
    printed by the conversion [%8.3f]. *)
Theorem write_dock_stats_five_lines (score_directory filename : string)
    (x0 x1 x2 x3 : pyfloat) (rest : list pyfloat) (time_diff : pyfloat)
    (w : world) :
  single_line_format ->
  exists w',
    write_dock_stats score_directory filename (x0 :: x1 :: x2 :: x3 :: rest)
      time_diff w = (Ret tt, w')
    /\ content (w_fs w') (os_path_join score_directory [filename])
       = content (w_fs w) (os_path_join score_directory [filename])
         +:+ concat_lines
               [ "Initial DNA score: " +:+ fmt_8_3f x0 +:+ nl;
                 "Final DNA Score: " +:+ fmt_8_3f x1 +:+ nl;
                 "Initial FA score: " +:+ fmt_8_3f x2 +:+ nl;
                 "Final FA score: " +:+ fmt_8_3f x3 +:+ nl;
                 "Total variant time: " +:+ fmt_8_3f time_diff +:+ nl ]
    /\ Forall (fun line => count_lines line = 1%nat)
         [ "Initial DNA score: " +:+ fmt_8_3f x0 +:+ nl;
           "Final DNA Score: " +:+ fmt_8_3f x1 +:+ nl;
           "Initial FA score: " +:+ fmt_8_3f x2 +:+ nl;
           "Final FA score: " +:+ fmt_8_3f x3 +:+ nl;
           "Total variant time: " +:+ fmt_8_3f time_diff +:+ nl ]
    /\ count_lines (content (w_fs w') (os_path_join score_directory [filename]))
       = (count_lines (content (w_fs w) (os_path_join score_directory [filename]))
          + 5)%nat.
Proof.
  intros Hfmt. eexists. split; [apply write_dock_stats_run |].
  cbn [w_fs]. rewrite content_insert.
  destruct (stats_lines_count x0 x1 x2 x3 time_diff Hfmt) as [Heach Hall].
  split; [reflexivity |]. split; [exact Heach |].
  rewrite count_lines_append, Hall. reflexivity.
Qed.

(** C8. Two calls of [write_dock_stats] on the same file, one after the
    other: each leaves the content the file had before it in place and adds
    its five lines after it, no other file changes, and the file ends with
    ten lines more than it had; a file that did not exist ends with ten
    lines. *)
Theorem write_dock_stats_appends (score_directory filename : string)
    (x0 x1 x2 x3 : pyfloat) (xs : list pyfloat) (t : pyfloat)
    (y0 y1 y2 y3 : pyfloat) (ys : list pyfloat) (u : pyfloat) (w : world) :
  single_line_format ->
  exists w1 w2,
    write_dock_stats score_directory filename (x0 :: x1 :: x2 :: x3 :: xs) t w
    = (Ret tt, w1)
    /\ write_dock_stats score_directory filename (y0 :: y1 :: y2 :: y3 :: ys) u w1
       = (Ret tt, w2)
    /\ content (w_fs w1) (os_path_join score_directory [filename])
       = content (w_fs w) (os_path_join score_directory [filename])
         +:+ concat_lines (stats_lines x0 x1 x2 x3 t)
    /\ content (w_fs w2) (os_path_join score_directory [filename])
       = content (w_fs w1) (os_path_join score_directory [filename])
         +:+ concat_lines (stats_lines y0 y1 y2 y3 u)
    /\ (forall other, other <> os_path_join score_directory [filename] ->
          w_fs w2 !! other = w_fs w !! other)
    /\ count_lines (content (w_fs w2) (os_path_join score_directory [filename]))
       = (count_lines (content (w_fs w) (os_path_join score_directory [filename]))
          + 10)%nat
    /\ (w_fs w !! os_path_join score_directory [filename] = None ->
        count_lines (content (w_fs w2) (os_path_join score_directory [filename]))
        = 10%nat).
Proof.
  intros Hfmt. do 2 eexists.
  split; [apply write_dock_stats_run |].
  split; [apply write_dock_stats_run |].
  cbn [w_fs]. rewrite !content_insert.
  destruct (stats_lines_count x0 x1 x2 x3 t Hfmt) as [_ Hx].
  destruct (stats_lines_count y0 y1 y2 y3 u Hfmt) as [_ Hy].
  assert (count_lines
            ((content (w_fs w) (os_path_join score_directory [filename])
              +:+ concat_lines (stats_lines x0 x1 x2 x3 t))
             +:+ concat_lines (stats_lines y0 y1 y2 y3 u))
          = (count_lines (content (w_fs w) (os_path_join score_directory [filename]))
             + 10)%nat) as Hcount.
  { rewrite !count_lines_append, Hx, Hy. lia. }
  split; [reflexivity |]. split; [reflexivity |].
  split; [| split].
  - intros other Hne. rewrite !lookup_insert_ne by congruence. reflexivity.
  - exact Hcount.
  - intros Hnone. rewrite Hcount. unfold content. rewrite Hnone. reflexivity.
Qed.

End WriteDockStatsClaims.

Lemma write_dock_stats_five_lines_witness :
  exists w',
    @write_dock_stats lab_host "scores" "aaa_Chimera.txt"
      [3000; 2750; 7000; 6750] 1500 (fresh_world lab_host O) = (Ret tt, w')
    /\ content (w_fs w') "scores/aaa_Chimera.txt"
       = concat_lines
           [ "Initial DNA score:    3.000" +:+ nl;
             "Final DNA Score:    2.750" +:+ nl;
             "Initial FA score:    7.000" +:+ nl;
             "Final FA score:    6.750" +:+ nl;
             "Total variant time:    1.500" +:+ nl ].
Proof.
  destruct (@write_dock_stats_five_lines lab_host "scores" "aaa_Chimera.txt"
              3000 2750 7000 6750 [] 1500 (fresh_world lab_host O)
              lab_single_line) as (w' & Hrun & Hcontent & _).
  exists w'. split; [exact Hrun | exact Hcontent].
Defined.

Lemma write_dock_stats_appends_witness :
  exists w1 w2,
    @write_dock_stats lab_host "scores" "aaa_Chimera.txt"
      [3000; 2750; 7000; 6750] 1500 (fresh_world lab_host O) = (Ret tt, w1)
    /\ @write_dock_stats lab_host "scores" "aaa_Chimera.txt"
         [2750; 2500; 6750; 6500] 1500 w1 = (Ret tt, w2)
    /\ count_lines (content (w_fs w2) "scores/aaa_Chimera.txt") = 10%nat.
Proof.
  destruct (@write_dock_stats_appends lab_host "scores" "aaa_Chimera.txt"
              3000 2750 7000 6750 [] 1500 2750 2500 6750 6500 [] 1500
              (fresh_world lab_host O) lab_single_line)
    as (w1 & w2 & H1 & H2 & _ & _ & _ & _ & Hten).
  exists w1, w2. split; [exact H1 |]. split; [exact H2 |].
  apply Hten. reflexivity.
Defined.

(** ** Complex docking *)

(** C5. On every pose and in every world [dock_complex] raises: it ends in
    an exception with the world as it was, and it never returns a list of
    scores. *)
Theorem dock_complex_raises `{host} (p : pose) (w : world) :
  (exists e, dock_complex p w = (Raise e, w))
  /\ (forall scores w', dock_complex p w <> (Ret scores, w')).
Proof.
  split.
  - exists complex_not_implemented. reflexivity.
  - intros scores w' E. unfold dock_complex, raise in E. discriminate E.
Qed.

(** ** The switches *)

Section Switches.
Context `{host}.

Lemma dock_variants_truthy (vs : list Z) (ps pp : string) (f g : pyval) :
  truthy f = truthy g -> dock_variants vs ps pp f = dock_variants vs ps pp g.
Proof.
  intros E. unfold dock_variants, dock_variants_with, dock_variant, dock_program.
  rewrite E. reflexivity.
Qed.

Lemma truthy_given (v : string) : v <> "" -> truthy (parse_switch (Given v)) = true.
Proof.
  intros Hv. cbn [parse_switch truthy].
  destruct (String.eqb_spec v ""); [contradiction | reflexivity].
Qed.

(** C10, as amended. A switch that is absent parses to [False] and a bare
    switch to [True]; a switch given a value parses to that string, which is
    true unless it is empty.  So with any non-empty value, the text "False"
    among them, the script runs exactly as with the bare switch, for
    [--complex] (complex docking) and for [--csv] alike, and with an empty
    value it runs exactly as without the switch. *)
Theorem switch_truthiness :
  parse_switch Omitted = PyBool false
  /\ parse_switch Bare = PyBool true
  /\ (forall v, truthy (parse_switch (Given v)) = negb (String.eqb v ""))
  /\ truthy (parse_switch (Given "False")) = true
  /\ (forall s e o p x v, v <> "" ->
        main (Cmdline s e o p (Given v) x) = main (Cmdline s e o p Bare x)
        /\ main (Cmdline s e o p x (Given v)) = main (Cmdline s e o p x Bare))
  /\ (forall s e o p x,
        main (Cmdline s e o p (Given "") x) = main (Cmdline s e o p Omitted x)
        /\ main (Cmdline s e o p x (Given "")) = main (Cmdline s e o p x Omitted)).
Proof.
  repeat split; try reflexivity.
  - unfold main, score_variants, dock_variants, dock_variants_with, dock_variant,
      dock_program.
    cbn [parse_args a_complex cl_complex].
    rewrite truthy_given by assumption. reflexivity.
  - unfold main, score_variants. cbn [parse_args a_csv cl_csv].
    rewrite truthy_given by assumption. reflexivity.
Qed.

End Switches.

(** C10, as stated, fails: a switch given the empty string is not true. *)
Lemma explicit_empty_value_is_falsy :
  ~ (forall v : string, truthy (parse_switch (Given v)) = true).
Proof. intros Hall. specialize (Hall ""). discriminate Hall. Qed.

Lemma switch_truthiness_witness :
  @main lab_host (Cmdline (Some 0) (Some 0) None None (Given "False") Omitted)
  = @main lab_host (Cmdline (Some 0) (Some 0) None None Bare Omitted).
Proof.
  destruct (@switch_truthiness lab_host) as (_ & _ & _ & _ & Hgiven & _).
  apply (Hgiven (Some 0) (Some 0) None None Omitted "False"). discriminate.
Defined.

(** ** The range check of the entry point *)

Section RangeCheck.
Context `{host}.

Lemma range_check_true (c : cmdline) :
  range_check (parse_args c) = true
  <-> exists s e, cl_start c = Some s /\ cl_end c = Some e /\ 0 <= s <= e /\ e <= 63.
Proof.
  unfold range_check, py_le. cbn [parse_args a_start a_end].
  destruct (cl_start c) as [s |], (cl_end c) as [e |]; split.
  - intros Hc. exists s, e. repeat split; lia.
  - intros (s' & e' & [= <-] & [= <-] & Hr). lia.
  - intros Hc. rewrite andb_false_r in Hc. discriminate Hc.
  - intros (s' & e' & _ & [=] & _).
  - intros Hc. discriminate Hc.
  - intros (s' & e' & [=] & _).
  - intros Hc. discriminate Hc.
  - intros (s' & e' & [=] & _).
Qed.

(** When the check holds the indices to score are [start] to [end], and the
    run goes on to score them. *)
Lemma main_in_range (c : cmdline) (w : world) (s e : Z) :
  cl_start c = Some s -> cl_end c = Some e -> 0 <= s <= e /\ e <= 63 ->
  pam_variants_to_score (parse_args c) = Ret (seqZ s (e - s + 1))
  /\ main c w = score_variants (seqZ s (e - s + 1)) (parse_args c) w.
Proof.
  intros Hs He Hr.
  assert (pam_variants_to_score (parse_args c) = Ret (seqZ s (e - s + 1))) as Hv.
  { unfold pam_variants_to_score, py_range. cbn [parse_args a_start a_end].
    rewrite Hs, He. cbn [int_of bind_outcome].
    replace (e + 1 - s) with (e - s + 1) by lia. reflexivity. }
  split; [exact Hv |].
  unfold main. cbv zeta.
  assert (range_check (parse_args c) = true) as ->
    by (apply range_check_true; eauto).
  rewrite Hv. reflexivity.
Qed.

Lemma seqZ_in_range (s e : Z) :
  0 <= s -> e <= 63 -> Forall (fun i => 0 <= i <= 63) (seqZ s (e - s + 1)).
Proof.
  intros Hs He. apply Forall_forall. intros i Hi. apply elem_of_seqZ in Hi. lia.
Qed.

End RangeCheck.

(** ** One (variant, program) pair *)

Section DockProgram.
Context `{host}.

Lemma bind_ret {A B} (a : A) (k : A -> M B) w : bind (ret a) k w = k a w.
Proof. reflexivity. Qed.

Lemma bind_print {B} (line : string) (k : unit -> M B) w :
  bind (print line) k w = k tt (printed line w).
Proof. reflexivity. Qed.

Lemma bind_time {B} (k : pyfloat -> M B) w :
  bind time k w = k (clock_time (w_clock w)) (tick w).
Proof. reflexivity. Qed.

Lemma io_trace_app (evs1 evs2 : list event) :
  io_trace (evs1 ++ evs2) = io_trace evs1 ++ io_trace evs2.
Proof. unfold io_trace. apply flat_map_app. Qed.

Lemma files_kept_refl (w : world) : files_kept w w.
Proof. intros path Hp. exact Hp. Qed.

Lemma files_kept_trans (w1 w2 w3 : world) :
  files_kept w1 w2 -> files_kept w2 w3 -> files_kept w1 w3.
Proof. intros H12 H23 path Hp. apply H23, H12, Hp. Qed.

Lemma toolkit_failure_app {A} (o : outcome A) (evs1 evs2 : list event) :
  toolkit_failure o evs2 -> toolkit_failure o (evs1 ++ evs2).
Proof.
  intros (msg & ev & Ho & Hl & Hf). exists msg, ev.
  split; [exact Ho |]. split; [| exact Hf].
  rewrite last_app, Hl. reflexivity.
Qed.

Lemma toolkit_failure_Raise {A B} (e : exn) (evs : list event) :
  toolkit_failure (@Raise A e) evs -> toolkit_failure (@Raise B e) evs.
Proof.
  intros (msg & ev & [= ->] & Hl & Hf). exists msg, ev. repeat split; assumption.
Qed.

(** A run that returned did not end in a toolkit failure. *)
Lemma toolkit_failure_Ret {A} (a : A) (evs : list event) :
  ~ toolkit_failure (Ret a) evs.
Proof. intros (msg & ev & [=] & _). Qed.

(** The simple branch: the pair loads its structure, docks, and appends to
    its result file, unless a toolkit call fails on the way. *)
Lemma dock_program_simple (impl : pose -> M (list pyfloat)) (ps pp : string)
    (flag : pyval) (v prog : string) (ds : option (list pyfloat)) (w : world)
    o w' :
  truthy flag = false ->
  dock_program impl ps pp flag v prog ds w = (o, w') ->
  files_kept w w'
  /\ exists evs,
      w_trace w' = w_trace w ++ evs
      /\ ((exists l, o = Ret (Some l)
                     /\ io_trace evs = pair_io ps pp v prog
                     /\ is_Some (w_fs w' !! os_path_join ps [v +:+ "_" +:+ prog +:+ ".txt"]))
          \/ toolkit_failure o evs).
Proof.
  intros Hflag E. unfold dock_program in E.
  rewrite bind_print, bind_time in E. unfold pose_from_pdb in E.
  run_call E.
  2: { split; [intros path Hp; exact Hp |].
       eexists. split; [cbn; reflexivity |]. right.
       do 2 eexists. repeat split. }
  rewrite Hflag in E.
  apply bind_inv in E as [(ds' & w2 & E1 & E) | (e & E & ->)].
  2: { apply bind_inv in E as [(l & w3 & E1 & E) | (e' & E & [= ->])];
         [discriminate E |].
       apply dock_simple_run in E
         as ((Hfs & _) & evs & Ht & _ & [(? & ? & ? & ? & ? & ? & ? & [=] & _)
                                        | Hfail]).
       split; [intros path Hp; rewrite Hfs; exact Hp |].
       eexists. split; [rewrite Ht; cbn; rewrite <- app_assoc; reflexivity |].
       right. apply toolkit_failure_app, (toolkit_failure_Raise _ _ Hfail). }
  apply bind_inv in E1 as [(l & w3 & E1 & E2) | (e' & _ & [=])].
  injection E2 as <- <-.
  apply dock_simple_run in E1
    as ((Hfs & _) & evs & Ht & Hio & [(fa & dna & d & f0 & f1 & f2 & f3 & [= ->] & _)
                                     | (msg & ev & [=] & _)]).
  rewrite bind_time in E. cbn [read_local] in E. rewrite bind_ret in E.
  rewrite (bind_Ret _ _ _ _ _ (write_dock_stats_run _ _ _ _ _ _ _ _ _)) in E.
  rewrite bind_print in E. injection E as <- <-.
  unfold files_kept, printed, tick, after_call in *. cbn [w_fs w_trace] in *.
  split.
  - intros path Hp. rewrite lookup_insert. case_decide; [eauto |].
    rewrite Hfs. exact Hp.
  - eexists. split; [rewrite Ht; cbn; rewrite <- !app_assoc; reflexivity |].
    left. eexists. split; [reflexivity |]. split.
    + rewrite io_trace_app. cbn [app]. unfold io_trace at 1. cbn [flat_map io_of app].
      rewrite io_trace_app, Hio. reflexivity.
    + rewrite lookup_insert_eq. eauto.
Qed.

(** The complex branch on a local [dock_stats] that is still unassigned:
    the structure is loaded, [complex_impl] is called, and if it returns,
    reading [dock_stats] for the write raises. *)
Lemma dock_program_complex (impl : pose -> M (list pyfloat)) (ps pp : string)
    (flag : pyval) (v prog : string) (w : world) :
  truthy flag = true ->
  dock_program impl ps pp flag v prog None w
  = let w0 := tick (printed ("Running for variant: " +:+ v +:+ "_" +:+ prog) w) in
    let path := os_path_join pp [prog; "4UN3." +:+ v +:+ ".pdb"] in
    match tk_pose_from_pdb path (w_toolkit w0) with
    | (failed msg, s) =>
        (Raise (ToolkitError msg),
         after_call w0 s (ev_pose_from_pdb path (failed msg)))
    | (ok p, s) =>
        match impl p (after_call w0 s (ev_pose_from_pdb path (ok p))) with
        | (Raise e, w2) => (Raise e, w2)
        | (Ret _, w2) => (Raise (UnboundLocalError "dock_stats"), tick w2)
        end
    end.
Proof.
  intros Hflag. unfold dock_program. rewrite bind_print, bind_time, Hflag.
  cbv zeta. unfold pose_from_pdb, bind at 1, call.
  destruct (tk_pose_from_pdb _ _) as [[p | msg] s]; [| reflexivity].
  unfold bind. destruct (impl p _) as [[l | e] w2]; reflexivity.
Qed.

End DockProgram.

(** ** The loops of [dock_variants] *)

Section DockVariants.
Context `{host}.

Lemma bind_lift_Ret {A B} (a : A) (k : A -> M B) w :
  bind (lift (Ret a)) k w = k a w.
Proof. reflexivity. Qed.

(** The inner loop on the simple branch, over any list of programs. *)
Lemma programs_simple (impl : pose -> M (list pyfloat)) (ps pp : string)
    (flag : pyval) (v : string) (progs : list string) :
  truthy flag = false ->
  forall (ds : option (list pyfloat)) (w : world) o w',
  for_each progs (dock_program impl ps pp flag v) ds w = (o, w') ->
  files_kept w w'
  /\ exists evs,
      w_trace w' = w_trace w ++ evs
      /\ ((exists ds', o = Ret ds'
                       /\ io_trace evs = flat_map (pair_io ps pp v) progs
                       /\ Forall
                            (fun prog =>
                               is_Some (w_fs w' !! os_path_join ps [v +:+ "_" +:+ prog +:+ ".txt"]))
                            progs)
          \/ toolkit_failure o evs).
Proof.
  intros Hflag. induction progs as [| prog progs IH]; intros ds w o w' E.
  - injection E as <- <-. split; [apply files_kept_refl |].
    exists []. split; [rewrite app_nil_r; reflexivity |].
    left. exists ds. repeat split. constructor.
  - cbn [for_each] in E.
    apply bind_inv in E as [(ds1 & w1 & E1 & E) | (e & E & ->)].
    + apply (dock_program_simple _ _ _ _ _ _ _ _ _ _ Hflag) in E1
        as (Hk1 & evs1 & Ht1 & [(l & _ & Hio1 & Hf1) | Hfail]);
        [| destruct (toolkit_failure_Ret _ _ Hfail)].
      apply IH in E
        as (Hk2 & evs2 & Ht2 & [(ds' & -> & Hio2 & Hf2) | Hfail]).
      * split; [eapply files_kept_trans; eassumption |].
        exists (evs1 ++ evs2).
        split; [rewrite Ht2, Ht1, app_assoc; reflexivity |].
        left. exists ds'. split; [reflexivity |]. split.
        -- rewrite io_trace_app, Hio1, Hio2. reflexivity.
        -- constructor; [apply Hk2, Hf1 | exact Hf2].
      * split; [eapply files_kept_trans; eassumption |].
        exists (evs1 ++ evs2).
        split; [rewrite Ht2, Ht1, app_assoc; reflexivity |].
        right. apply toolkit_failure_app, Hfail.
    + apply (dock_program_simple _ _ _ _ _ _ _ _ _ _ Hflag) in E
        as (Hk1 & evs1 & Ht1 & [(l & [=] & _) | Hfail]).
      split; [exact Hk1 |]. exists evs1. split; [exact Ht1 |].
      right. exact Hfail.
Qed.

(** The outer loop on the simple branch, over indices from 0 to 63. *)
Lemma variants_simple (impl : pose -> M (list pyfloat)) (ps pp : string)
    (flag : pyval) (vs : list Z) :
  truthy flag = false ->
  Forall (fun i => 0 <= i <= 63) vs ->
  forall (ds : option (list pyfloat)) (w : world) o w',
  for_each vs (dock_variant impl ps pp flag) ds w = (o, w') ->
  files_kept w w'
  /\ exists evs,
      w_trace w' = w_trace w ++ evs
      /\ ((exists ds', o = Ret ds'
                       /\ io_trace evs = variants_io ps pp vs
                       /\ Forall
                            (fun i =>
                               Forall
                                 (fun prog =>
                                    is_Some
                                      (w_fs w'
                                       !! os_path_join ps
                                            [pam_string i +:+ "_" +:+ prog +:+ ".txt"]))
                                 programs)
                            vs)
          \/ toolkit_failure o evs).
Proof.
  intros Hflag Hvs. induction Hvs as [| i vs Hi Hvs IH]; intros ds w o w' E.
  - injection E as <- <-. split; [apply files_kept_refl |].
    exists []. split; [rewrite app_nil_r; reflexivity |].
    left. exists ds. repeat split. constructor.
  - cbn [for_each] in E.
    apply bind_inv in E as [(ds1 & w1 & E1 & E) | (e & E & ->)].
    + unfold dock_variant in E1.
      rewrite (variant_pam_string i Hi), bind_lift_Ret in E1.
      apply (programs_simple _ _ _ _ _ _ Hflag) in E1
        as (Hk1 & evs1 & Ht1 & [(ds1' & _ & Hio1 & Hf1) | Hfail]);
        [| destruct (toolkit_failure_Ret _ _ Hfail)].
      apply IH in E
        as (Hk2 & evs2 & Ht2 & [(ds' & -> & Hio2 & Hf2) | Hfail]).
      * split; [eapply files_kept_trans; eassumption |].
        exists (evs1 ++ evs2).
        split; [rewrite Ht2, Ht1, app_assoc; reflexivity |].
        left. exists ds'. split; [reflexivity |]. split.
        -- rewrite io_trace_app, Hio1, Hio2. reflexivity.
        -- constructor; [| exact Hf2].
           eapply Forall_impl; [exact Hf1 |]. intros prog Hp. apply Hk2, Hp.
      * split; [eapply files_kept_trans; eassumption |].
        exists (evs1 ++ evs2).
        split; [rewrite Ht2, Ht1, app_assoc; reflexivity |].
        right. apply toolkit_failure_app, Hfail.
    + unfold dock_variant in E.
      rewrite (variant_pam_string i Hi), bind_lift_Ret in E.
      apply (programs_simple _ _ _ _ _ _ Hflag) in E
        as (Hk1 & evs1 & Ht1 & [(l & [=] & _) | Hfail]).
      split; [exact Hk1 |]. exists evs1. split; [exact Ht1 |].
      right. exact Hfail.
Qed.

End DockVariants.

(** ** The complex branch of [dock_variants] *)

Section ComplexBranch.
Context `{host}.

(** With a true flag the run ends in the first (variant, program) pair. *)
Lemma dock_variants_complex_first (impl : pose -> M (list pyfloat)) (i : Z)
    (rest : list Z) (ps pp : string) (flag : pyval) (w : world) :
  truthy flag = true ->
  dock_variants_with impl (i :: rest) ps pp flag w
  = match variant i with
    | Raise e => (Raise e, w)
    | Ret v =>
        let w0 :=
          tick (printed ("Running for variant: " +:+ v +:+ "_" +:+ "Chimera") w) in
        let path := os_path_join pp ["Chimera"; "4UN3." +:+ v +:+ ".pdb"] in
        match tk_pose_from_pdb path (w_toolkit w0) with
        | (failed msg, s) =>
            (Raise (ToolkitError msg),
             after_call w0 s (ev_pose_from_pdb path (failed msg)))
        | (ok p, s) =>
            match impl p (after_call w0 s (ev_pose_from_pdb path (ok p))) with
            | (Raise e, w2) => (Raise e, w2)
            | (Ret _, w2) => (Raise (UnboundLocalError "dock_stats"), tick w2)
            end
        end
    end.
Proof.
  intros Hflag. unfold dock_variants_with. cbn [for_each].
  unfold dock_variant, programs. cbn [for_each].
  destruct (variant i) as [v | e]; [| reflexivity].
  unfold bind at 1 2 3. unfold lift at 1. unfold bind at 1.
  rewrite (dock_program_complex _ _ _ _ _ _ _ Hflag). cbv zeta.
  destruct (tk_pose_from_pdb _ _) as [[p | msg] s]; [| reflexivity].
  destruct (impl p _) as [[l | e] w2]; reflexivity.
Qed.

(** The exceptions a run of [dock_variants] over indices from 0 to 63 can
    end in. *)
Lemma dock_variants_exceptions (vs : list Z) (ps pp : string) (flag : pyval)
    (w : world) e w' :
  Forall (fun i => 0 <= i <= 63) vs ->
  dock_variants vs ps pp flag w = (Raise e, w') ->
  (e = complex_not_implemented /\ truthy flag = true)
  \/ (exists msg, e = ToolkitError msg).
Proof.
  intros Hvs E. destruct (truthy flag) eqn:Hflag.
  - destruct Hvs as [| i vs Hi Hvs]; [discriminate E |].
    unfold dock_variants in E.
    rewrite (dock_variants_complex_first _ _ _ _ _ _ _ Hflag) in E.
    rewrite (variant_pam_string i Hi) in E. cbv zeta in E.
    destruct (tk_pose_from_pdb _ _) as [[p | msg] s].
    + unfold dock_complex, raise in E. injection E as <- _. left. split; reflexivity.
    + injection E as <- _. right. exists msg. reflexivity.
  - unfold dock_variants, dock_variants_with in E.
    apply bind_inv in E as [(ds & w1 & _ & [=]) | (e' & E & [= ->])].
    apply (variants_simple _ _ _ _ _ Hflag Hvs) in E
      as (_ & _ & _ & [(ds' & [=] & _) | (msg & _ & [= ->] & _)]).
    right. exists msg. reflexivity.
Qed.

End ComplexBranch.

(** ** What a run loads and opens *)

Section LoadsAndOpens.
Context `{host}.

(** A loop loads and opens, element after element, what its body does: all
    of it when the loop returns, a part from the start when it ends early. *)
Lemma for_each_io {A L} (body : A -> L -> M L) (f : A -> list io) (xs : list A) :
  Forall
    (fun x =>
       forall l w o w',
         body x l w = (o, w') ->
         exists evs,
           w_trace w' = w_trace w ++ evs
           /\ io_trace evs `prefix_of` f x
           /\ (forall l', o = Ret l' -> io_trace evs = f x))
    xs ->
  forall l w o w',
    for_each xs body l w = (o, w') ->
    exists evs,
      w_trace w' = w_trace w ++ evs
      /\ io_trace evs `prefix_of` flat_map f xs
      /\ (forall l', o = Ret l' -> io_trace evs = flat_map f xs).
Proof.
  induction 1 as [| x xs Hx _ IH]; intros l w o w' E.
  - injection E as <- <-. exists []. rewrite app_nil_r.
    split; [reflexivity |]. split; [reflexivity |]. intros l' _. reflexivity.
  - cbn [for_each] in E.
    apply bind_inv in E as [(l1 & w1 & E1 & E) | (e & E & ->)].
    + apply Hx in E1 as (evs1 & Ht1 & _ & Hio1).
      specialize (Hio1 l1 eq_refl).
      apply IH in E as (evs2 & Ht2 & Hp2 & Hio2).
      exists (evs1 ++ evs2).
      split; [rewrite Ht2, Ht1, app_assoc; reflexivity |].
      rewrite io_trace_app, Hio1. cbn [flat_map]. split.
      * apply prefix_app, Hp2.
      * intros l' Ho. rewrite (Hio2 l' Ho). reflexivity.
    + apply Hx in E as (evs1 & Ht1 & Hp1 & _).
      exists evs1. split; [exact Ht1 |]. cbn [flat_map]. split.
      * apply prefix_app_r, Hp1.
      * intros l' [=].
Qed.

(** One pair on the simple branch: the structure is loaded first, and the
    result file is opened only if docking returned. *)
Lemma dock_program_simple_io (impl : pose -> M (list pyfloat)) (ps pp : string)
    (flag : pyval) (v prog : string) (ds : option (list pyfloat)) (w : world)
    o w' :
  truthy flag = false ->
  dock_program impl ps pp flag v prog ds w = (o, w') ->
  exists evs,
    w_trace w' = w_trace w ++ evs
    /\ io_trace evs `prefix_of` pair_io ps pp v prog
    /\ (forall l', o = Ret l' -> io_trace evs = pair_io ps pp v prog).
Proof.
  intros Hflag E. unfold dock_program in E.
  rewrite bind_print, bind_time in E. unfold pose_from_pdb in E.
  run_call E.
  2: { eexists. split; [cbn; reflexivity |]. split; [| intros l' [=]].
       eexists [_]. reflexivity. }
  rewrite Hflag in E.
  apply bind_inv in E as [(ds' & w2 & E1 & E) | (e & E & ->)].
  2: { apply bind_inv in E as [(l & w3 & E1 & E) | (e' & E & [= ->])];
         [discriminate E |].
       apply dock_simple_run in E as (_ & evs & Ht & Hio & _).
       eexists. split; [rewrite Ht; cbn; rewrite <- app_assoc; reflexivity |].
       split; [| intros l' [=]].
       rewrite io_trace_app, Hio. eexists [_]. reflexivity. }
  apply bind_inv in E1 as [(l & w3 & E1 & E2) | (e' & _ & [=])].
  injection E2 as <- <-.
  apply dock_simple_run in E1
    as (_ & evs & Ht & Hio & [(fa & dna & d & f0 & f1 & f2 & f3 & [= ->] & _)
                             | (msg & ev & [=] & _)]).
  rewrite bind_time in E. cbn [read_local] in E. rewrite bind_ret in E.
  rewrite (bind_Ret _ _ _ _ _ (write_dock_stats_run _ _ _ _ _ _ _ _ _)) in E.
  rewrite bind_print in E. injection E as <- <-.
  unfold printed, tick, after_call in *. cbn [w_fs w_trace] in *.
  eexists. split; [rewrite Ht; cbn; rewrite <- !app_assoc; reflexivity |].
  match goal with
  | |- io_trace ?evs0 `prefix_of` _ /\ _ =>
      assert (io_trace evs0 = pair_io ps pp v prog) as Hall
  end.
  { rewrite io_trace_app. cbn [app]. unfold io_trace at 1.
    cbn [flat_map io_of app]. rewrite io_trace_app, Hio. reflexivity. }
  split; [rewrite Hall; reflexivity | intros l' _; exact Hall].
Qed.

(** The loops on the simple branch, over indices from 0 to 63. *)
Lemma for_each_variants_io (impl : pose -> M (list pyfloat)) (ps pp : string)
    (flag : pyval) (vs : list Z) :
  truthy flag = false ->
  Forall (fun i => 0 <= i <= 63) vs ->
  forall ds w o w',
    for_each vs (dock_variant impl ps pp flag) ds w = (o, w') ->
    exists evs,
      w_trace w' = w_trace w ++ evs
      /\ io_trace evs `prefix_of` variants_io ps pp vs
      /\ (forall l', o = Ret l' -> io_trace evs = variants_io ps pp vs).
Proof.
  intros Hflag Hvs. unfold variants_io.
  apply (for_each_io _ (fun i => flat_map (pair_io ps pp (pam_string i)) programs)).
  eapply Forall_impl; [exact Hvs |]. intros i Hi l w o w' E.
  unfold dock_variant in E.
  rewrite (variant_pam_string i Hi), bind_lift_Ret in E.
  revert l w o w' E. apply for_each_io.
  apply Forall_forall. intros prog _ l w o w' E.
  apply (dock_program_simple_io _ _ _ _ _ _ _ _ _ _ Hflag E).
Qed.

(** With a true flag and a first index from 0 to 63, the run makes one
    call, loading the first structure, and raises. *)
Lemma dock_variants_complex_run (i : Z) (rest : list Z) (ps pp : string)
    (flag : pyval) (w : world) :
  truthy flag = true -> 0 <= i <= 63 ->
  exists e w' r,
    dock_variants (i :: rest) ps pp flag w = (Raise e, w')
    /\ w_fs w' = w_fs w /\ w_dirs w' = w_dirs w
    /\ w_trace w'
       = w_trace w
         ++ [ev_pose_from_pdb
               (os_path_join pp ["Chimera"; "4UN3." +:+ pam_string i +:+ ".pdb"]) r]
    /\ match r with
       | ok _ => e = complex_not_implemented
       | failed msg => e = ToolkitError msg
       end.
Proof.
  intros Hflag Hi. unfold dock_variants.
  rewrite (dock_variants_complex_first _ _ _ _ _ _ _ Hflag).
  rewrite (variant_pam_string i Hi). cbv zeta.
  destruct (tk_pose_from_pdb _ _) as [[p | msg] s] eqn:R.
  - exists complex_not_implemented. eexists. exists (ok p). repeat split.
  - exists (ToolkitError msg). eexists. exists (failed msg). repeat split.
Qed.

(** How a run of [dock_variants] over indices from 0 to 63 ends, and what
    it has loaded and opened by then. *)
Lemma dock_variants_io (vs : list Z) (ps pp : string) (flag : pyval)
    (w : world) o w' :
  Forall (fun i => 0 <= i <= 63) vs ->
  dock_variants vs ps pp flag w = (o, w') ->
  exists evs,
    w_trace w' = w_trace w ++ evs
    /\ io_trace evs `prefix_of` variants_io ps pp vs
    /\ ((o = Ret tt /\ io_trace evs = variants_io ps pp vs
         /\ (vs = [] \/ truthy flag = false))
        \/ toolkit_failure o evs
        \/ (exists i rest,
              vs = i :: rest /\ truthy flag = true
              /\ o = Raise complex_not_implemented
              /\ io_trace evs
                 = [Loaded (os_path_join pp ["Chimera"; "4UN3." +:+ pam_string i +:+ ".pdb"])])).
Proof.
  intros Hvs E. destruct (truthy flag) eqn:Hflag.
  - destruct Hvs as [| i vs Hi Hvs].
    + injection E as <- <-. exists []. rewrite app_nil_r.
      split; [reflexivity |]. split; [reflexivity |].
      left. repeat split. left. reflexivity.
    + destruct (dock_variants_complex_run i vs ps pp flag w Hflag Hi)
        as (e & w1 & r & Hrun & _ & _ & Ht & Hr).
      rewrite Hrun in E. injection E as <- <-.
      eexists. split; [exact Ht |]. split.
      { eexists. unfold variants_io, programs. reflexivity. }
      destruct r as [p | msg].
      * right. right. exists i, vs. subst e. repeat split.
      * right. left. exists msg. eexists. subst e. repeat split.
  - unfold dock_variants, dock_variants_with in E.
    apply bind_inv in E as [(ds & w1 & E1 & E) | (e & E & ->)].
    + injection E as <- <-.
      apply (for_each_variants_io _ _ _ _ _ Hflag Hvs) in E1
        as (evs & Ht & Hp & Hio).
      exists evs. split; [exact Ht |]. split; [exact Hp |].
      left. split; [reflexivity |]. split; [apply (Hio ds eq_refl) |].
      right. reflexivity.
    + pose proof E as E'.
      apply (for_each_variants_io _ _ _ _ _ Hflag Hvs) in E
        as (evs & Ht & Hp & _).
      apply (variants_simple _ _ _ _ _ Hflag Hvs) in E'
        as (_ & evs' & Ht' & [(ds' & [=] & _) | Hfail]).
      rewrite Ht in Ht'. apply app_inv_head in Ht'. subst evs'.
      exists evs. split; [exact Ht |]. split; [exact Hp |].
      right. left. apply (toolkit_failure_Raise _ _ Hfail).
Qed.

Lemma scores_path_run (a : args) (w : world) :
  exists path w0,
    scores_path a w = (Ret path, w0)
    /\ w_toolkit w0 = w_toolkit w /\ w_fs w0 = w_fs w /\ w_dirs w0 = w_dirs w
    /\ w_trace w0 = w_trace w.
Proof.
  unfold scores_path. destruct (a_output_dir a) as [d |].
  - exists d, w. repeat split.
  - do 2 eexists. split; [reflexivity |]. repeat split.
Qed.


Lemma bind_exists {B} (path : string) (k : bool -> M B) w :
  bind (os_path_exists path) k w
  = k (negb (String.eqb path "")
       && (bool_decide (path ∈ w_dirs w) || bool_decide (is_Some (w_fs w !! path))))
      w.
Proof. reflexivity. Qed.

(** Lines 132 to 139: the output path is computed and the directory made
    unless something stands there.  Either [os.makedirs] raises, for the
    empty path or because the operating system refuses, and the run ends
    before any external call; or the run goes on to the toolkit with the
    files as they were and the directory in place. *)
Lemma score_variants_prelude (vs : list Z) (a : args) (w : world) :
  exists path w0,
    scores_path a w = (Ret path, w0)
    /\ w_fs w0 = w_fs w /\ w_dirs w0 = w_dirs w /\ w_trace w0 = w_trace w
    /\ ((score_variants vs a w = (Raise OSError, w0)
         /\ (path = "" \/ os_refuses_makedirs path (w_fs w0) (w_dirs w0) = true))
        \/ (exists w1 pre,
              score_variants vs a w
              = (init "-mute all" ;;
                 dock_variants vs path (a_pdb_dir a) (a_complex a) ;;
                 if truthy (a_csv a) then results_to_csv path else ret tt) w1
              /\ w_trace w1 = w_trace w ++ pre
              /\ (pre = [] \/ pre = [ev_makedirs path])
              /\ w_fs w1 = w_fs w
              /\ path <> ""
              /\ (path ∈ w_dirs w1 \/ is_Some (w_fs w !! path)))).
Proof.
  destruct (scores_path_run a w) as (path & w0 & Hsp & _ & Hfs0 & Hd0 & Ht0).
  exists path, w0. split; [exact Hsp |]. split; [exact Hfs0 |].
  split; [exact Hd0 |]. split; [exact Ht0 |].
  unfold score_variants. rewrite (bind_Ret _ _ _ _ _ Hsp), bind_exists.
  destruct (String.eqb path "") eqn:Hempty.
  - left. apply String.eqb_eq in Hempty. subst path.
    split; [reflexivity | left; reflexivity].
  - assert (path <> "") as Hne by (intros ->; discriminate Hempty).
    cbn [negb andb].
    destruct (bool_decide (path ∈ w_dirs w0)
              || bool_decide (is_Some (w_fs w0 !! path))) eqn:Hfound;
      cbn [negb].
    + right. exists w0, []. rewrite bind_ret, app_nil_r.
      split; [reflexivity |]. split; [exact Ht0 |].
      split; [left; reflexivity |]. split; [exact Hfs0 |].
      split; [exact Hne |].
      apply orb_prop in Hfound as [Hin | Hfile].
      * left. apply bool_decide_eq_true in Hin. exact Hin.
      * right. apply bool_decide_eq_true in Hfile. rewrite <- Hfs0. exact Hfile.
    + destruct (os_refuses_makedirs path (w_fs w0) (w_dirs w0)) eqn:Href.
      * left. split; [| right; reflexivity]. apply bind_Raise.
        unfold os_makedirs. rewrite Hempty, Hfound, Href. reflexivity.
      * right.
        assert (os_makedirs path w0
                = (Ret tt,
                   log_event (ev_makedirs path)
                     (World _ (w_toolkit w0) (w_fs w0) ({[path]} ∪ w_dirs w0)
                        (w_stdout w0) (w_trace w0) (w_clock w0)))) as Hmk.
        { unfold os_makedirs. rewrite Hempty, Hfound, Href. reflexivity. }
        rewrite (bind_Ret _ _ _ _ _ Hmk).
        eexists. exists [ev_makedirs path]. split; [reflexivity |].
        cbn. split; [rewrite Ht0; reflexivity |].
        split; [right; reflexivity |]. split; [exact Hfs0 |].
        split; [exact Hne |].
        left. apply elem_of_union_l, elem_of_singleton_2. reflexivity.
Qed.

(** Lines 131 to 147 over indices from 0 to 63: how the run ends and what
    it has loaded and opened by then. *)
Lemma score_variants_io (vs : list Z) (a : args) (w : world) o w' :
  Forall (fun i => 0 <= i <= 63) vs ->
  score_variants vs a w = (o, w') ->
  exists path w0 evs,
    scores_path a w = (Ret path, w0)
    /\ w_trace w' = w_trace w ++ evs
    /\ io_trace evs `prefix_of` variants_io path (a_pdb_dir a) vs
    /\ ((o = Raise OSError /\ evs = [] /\ w' = w0
         /\ (path = "" \/ os_refuses_makedirs path (w_fs w0) (w_dirs w0) = true))
        \/ toolkit_failure o evs
        \/ (exists i rest,
              vs = i :: rest /\ truthy (a_complex a) = true
              /\ o = Raise complex_not_implemented
              /\ io_trace evs
                 = [Loaded (os_path_join (a_pdb_dir a)
                              ["Chimera"; "4UN3." +:+ pam_string i +:+ ".pdb"])])
        \/ ((vs = [] \/ truthy (a_complex a) = false)
            /\ io_trace evs = variants_io path (a_pdb_dir a) vs
            /\ (o = Ret tt
                \/ exists msg,
                     o = Raise (ResultsCsvError msg)
                     /\ last evs = Some (ev_results_to_csv path (failed msg))))).
Proof.
  intros Hvs E.
  destruct (score_variants_prelude vs a w)
    as (path & w0 & Hsp & _ & _ & Ht0
        & [[Hrun Hwhy] | (w1 & pre & Hrun & Ht1 & Hpre & _)]).
  - rewrite Hrun in E. injection E as <- <-.
    exists path, w0, []. rewrite app_nil_r.
    split; [exact Hsp |]. split; [exact Ht0 |]. split; [apply prefix_nil |].
    left. repeat split. exact Hwhy.
  - rewrite Hrun in E. clear Hrun.
    assert (io_trace pre = []) as Hiopre by (destruct Hpre as [-> | ->]; reflexivity).
    exists path, w0.
    apply bind_inv in E as [([] & w2 & E2 & E) | (e & E & ->)].
    2: { unfold init in E. apply call_Raise_inv in E as (msg & s & R & -> & ->).
         exists (pre ++ [ev_init "-mute all" (failed msg)]).
         split; [exact Hsp |].
         split; [cbn; rewrite Ht1, <- app_assoc; reflexivity |].
         split; [rewrite io_trace_app, Hiopre; apply prefix_nil |].
         right. left. apply toolkit_failure_app.
         exists msg. eexists. repeat split. }
    unfold init in E2. apply call_Ret_inv in E2 as (s & R & ->).
    apply bind_inv in E as [([] & w3 & E3 & E) | (e & E & ->)].
    + apply (dock_variants_io _ _ _ _ _ _ _ Hvs) in E3
        as (evs & Ht & Hp & [(_ & Hall & Hsimple) | [Hfail | Hcomplex]]).
      2: { destruct (toolkit_failure_Ret _ _ Hfail). }
      2: { destruct Hcomplex as (i & rest & _ & _ & [=] & _). }
      assert (exists post,
                 w_trace w' = w_trace w3 ++ post /\ io_trace post = []
                 /\ (o = Ret tt
                     \/ exists msg,
                          o = Raise (ResultsCsvError msg)
                          /\ last post = Some (ev_results_to_csv path (failed msg))))
        as (post & Htp & Hiop & Ho).
      { destruct (truthy (a_csv a)).
        - unfold results_to_csv in E.
          destruct (csv_results_to_csv _ _) as [fs | msg]; injection E as <- <-;
            eexists [_]; (split; [reflexivity |]); (split; [reflexivity |]).
          + left. reflexivity.
          + right. exists msg. split; reflexivity.
        - injection E as <- <-. exists []. rewrite app_nil_r.
          repeat split. left. reflexivity. }
      exists (pre ++ [ev_init "-mute all" (ok tt)] ++ evs ++ post).
      split; [exact Hsp |].
      split; [rewrite Htp, Ht; cbn; rewrite Ht1, <- !app_assoc; reflexivity |].
      assert (io_trace (pre ++ [ev_init "-mute all" (ok tt)] ++ evs ++ post)
              = variants_io path (a_pdb_dir a) vs) as Heq.
      { rewrite !io_trace_app, Hiopre, Hiop, Hall, app_nil_r. reflexivity. }
      split; [rewrite Heq; reflexivity |].
      right. right. right. split; [exact Hsimple |]. split; [exact Heq |].
      destruct Ho as [-> | (msg & -> & Hl)]; [left; reflexivity |].
      right. exists msg. split; [reflexivity |].
      rewrite !app_assoc, last_app, Hl. reflexivity.
    + apply (dock_variants_io _ _ _ _ _ _ _ Hvs) in E
        as (evs & Ht & Hp & Hcases).
      exists (pre ++ [ev_init "-mute all" (ok tt)] ++ evs).
      split; [exact Hsp |].
      split; [rewrite Ht; cbn; rewrite Ht1, <- !app_assoc; reflexivity |].
      assert (io_trace (pre ++ [ev_init "-mute all" (ok tt)] ++ evs)
              = io_trace evs) as Heq.
      { rewrite !io_trace_app, Hiopre. reflexivity. }
      split; [rewrite Heq; exact Hp |].
      destruct Hcases as [([=] & _) | [Hfail | (i & rest & -> & Hflag & [= ->] & Hio)]].
      * right. left. rewrite app_assoc.
        apply toolkit_failure_app, (toolkit_failure_Raise _ _ Hfail).
      * right. right. left. exists i, rest. rewrite Heq. repeat split; assumption.
Qed.

End LoadsAndOpens.

(** ** Claims on [dock_variants] and on the entry point *)

Section DockVariantsClaims.
Context `{host}.

(** C4, as amended. With a false flag and indices from 0 to 63, a run of
    [dock_variants] either ends in the exception of a toolkit call that
    failed, the last call it made, or it returns: it then has, for every
    index in the order given and for "Chimera" then "3DNA", loaded the
    structure at
    [os.path.join(path_to_pdbs, program, "4UN3." + variant + ".pdb")] and
    opened the result file [variant + "_" + program + ".txt"] in
    [path_to_scores], nothing else, and each of these result files, two per
    index, exists afterwards. *)
Theorem dock_variants_simple_io (pam_variants : list Z)
    (path_to_scores path_to_pdbs : string) (complex_docking_flag : pyval)
    (w : world) :
  truthy complex_docking_flag = false ->
  Forall (fun i => 0 <= i <= 63) pam_variants ->
  exists o w' evs,
    dock_variants pam_variants path_to_scores path_to_pdbs complex_docking_flag w
    = (o, w')
    /\ w_trace w' = w_trace w ++ evs
    /\ ((o = Ret tt
         /\ io_trace evs
            = flat_map
                (fun i =>
                   flat_map
                     (fun program =>
                        [ Loaded (os_path_join path_to_pdbs
                                    [program; "4UN3." +:+ pam_string i +:+ ".pdb"]);
                          Opened (os_path_join path_to_scores
                                    [pam_string i +:+ "_" +:+ program +:+ ".txt"]) ])
                     ["Chimera"; "3DNA"])
                pam_variants
         /\ (forall i program,
               i ∈ pam_variants -> program ∈ ["Chimera"; "3DNA"] ->
               is_Some (w_fs w'
                        !! os_path_join path_to_scores
                             [pam_string i +:+ "_" +:+ program +:+ ".txt"])))
        \/ (exists msg ev,
              o = Raise (ToolkitError msg) /\ last evs = Some ev
              /\ failure ev = Some msg)).
Proof.
  intros Hflag Hvs.
  destruct (dock_variants pam_variants path_to_scores path_to_pdbs
              complex_docking_flag w) as [o w'] eqn:E.
  exists o, w'. unfold dock_variants, dock_variants_with in E.
  apply bind_inv in E as [(ds & w1 & E1 & E) | (e & E & ->)].
  - injection E as <- <-.
    apply (variants_simple _ _ _ _ _ Hflag Hvs) in E1
      as (_ & evs & Ht & [(ds' & _ & Hio & Hfiles) | Hfail]);
      [| destruct (toolkit_failure_Ret _ _ Hfail)].
    exists evs. split; [reflexivity |]. split; [exact Ht |].
    left. split; [reflexivity |]. split; [exact Hio |].
    intros i program Hi Hprogram.
    rewrite Forall_forall in Hfiles. specialize (Hfiles i Hi).
    rewrite Forall_forall in Hfiles. apply Hfiles, Hprogram.
  - apply (variants_simple _ _ _ _ _ Hflag Hvs) in E
      as (_ & evs & Ht & [(ds' & [=] & _) | (msg & ev & [= ->] & Hl & Hf)]).
    exists evs. split; [reflexivity |]. split; [exact Ht |].
    right. exists msg, ev. repeat split; assumption.
Qed.

(** C9. With a true flag and a first index [i], a run of [dock_variants]
    ends in an exception within the first (variant, program) pair and
    leaves the files as they were: either line 91 raises for [i], or the
    run has printed the line of the pair (variant, "Chimera"), has made one
    toolkit call, loading that pair's structure, and ends in the exception
    of [dock_complex], or in the toolkit's when the structure cannot be
    loaded.  And were the function called on the complex branch to return,
    the run would end, right after that call and one reading of the clock,
    in [UnboundLocalError] for [dock_stats], which that branch never
    assigns. *)
Theorem complex_flag_raises_first (i : Z) (rest : list Z)
    (path_to_scores path_to_pdbs : string) (complex_docking_flag : pyval)
    (w : world) :
  truthy complex_docking_flag = true ->
  (exists e w',
     dock_variants (i :: rest) path_to_scores path_to_pdbs complex_docking_flag w
     = (Raise e, w')
     /\ w_fs w' = w_fs w
     /\ ((variant i = Raise e /\ w' = w)
         \/ (exists v r,
               variant i = Ret v
               /\ w_stdout w'
                  = w_stdout w ++ ["Running for variant: " +:+ v +:+ "_" +:+ "Chimera"]
               /\ w_trace w'
                  = w_trace w
                    ++ [ev_pose_from_pdb
                          (os_path_join path_to_pdbs ["Chimera"; "4UN3." +:+ v +:+ ".pdb"])
                          r]
               /\ match r with
                  | ok _ => e = complex_not_implemented
                  | failed msg => e = ToolkitError msg
                  end)))
  /\ (forall (complex_impl : pose -> M (list pyfloat)) v p s scores w2,
        variant i = Ret v ->
        tk_pose_from_pdb
          (os_path_join path_to_pdbs ["Chimera"; "4UN3." +:+ v +:+ ".pdb"])
          (w_toolkit w) = (ok p, s) ->
        complex_impl p
          (after_call
             (tick (printed ("Running for variant: " +:+ v +:+ "_" +:+ "Chimera") w))
             s
             (ev_pose_from_pdb
                (os_path_join path_to_pdbs ["Chimera"; "4UN3." +:+ v +:+ ".pdb"])
                (ok p)))
        = (Ret scores, w2) ->
        dock_variants_with complex_impl (i :: rest) path_to_scores path_to_pdbs
          complex_docking_flag w
        = (Raise (UnboundLocalError "dock_stats"), tick w2)).
Proof.
  intros Hflag. split.
  - unfold dock_variants.
    rewrite (dock_variants_complex_first _ _ _ _ _ _ _ Hflag).
    destruct (variant i) as [v | e].
    + cbv zeta.
      destruct (tk_pose_from_pdb _ _) as [[p | msg] s] eqn:R.
      * do 2 eexists. split; [reflexivity |]. split; [reflexivity |].
        right. exists v, (ok p). repeat split; reflexivity.
      * do 2 eexists. split; [reflexivity |]. split; [reflexivity |].
        right. exists v, (failed msg). repeat split; reflexivity.
    + exists e, w. split; [reflexivity |]. split; [reflexivity |].
      left. split; reflexivity.
  - intros complex_impl v p s scores w2 Hv Hload Himpl.
    rewrite (dock_variants_complex_first _ _ _ _ _ _ _ Hflag), Hv. cbv zeta.
    cbn [w_toolkit tick printed]. rewrite Hload, Himpl. reflexivity.
Qed.


(** C7, as amended. An exception that ends a run of the entry point is the
    [AssertionError] of the script's own range check, raised before
    anything else has happened, or the [OSError] of [os.makedirs], raised
    for the output path before any call into the toolkit (always so for the
    empty path), or the exception of the script's own [raise] statement in
    [dock_complex], or an exception propagated from a toolkit call, or one
    propagated from [results_to_csv].  Opening and writing the result
    files are taken to succeed. *)
Theorem main_exceptions (c : cmdline) (w : world) e w' :
  main c w = (Raise e, w') ->
  (e = AssertionError /\ range_check (parse_args c) = false /\ w' = w)
  \/ (e = OSError
      /\ exists path,
           scores_path (parse_args c) w = (Ret path, w')
           /\ (path = "" \/ os_refuses_makedirs path (w_fs w') (w_dirs w') = true))
  \/ (e = complex_not_implemented /\ truthy (a_complex (parse_args c)) = true)
  \/ (exists msg, e = ToolkitError msg)
  \/ (exists msg, e = ResultsCsvError msg).
Proof.
  intros E.
  destruct (range_check (parse_args c)) eqn:Hc.
  2: { unfold main in E. cbv zeta in E. rewrite Hc in E.
       injection E as <- <-. left. repeat split. }
  apply range_check_true in Hc as (s & e0 & Hs & He & Hr).
  destruct (main_in_range c w s e0 Hs He Hr) as [_ Hmain].
  rewrite Hmain in E.
  apply (score_variants_io _ _ _ _ _ (seqZ_in_range s e0 (proj1 (proj1 Hr)) (proj2 Hr)))
    in E as (path & w0 & evs & Hsp & _ & _ & Hcases).
  destruct Hcases
    as [([= ->] & _ & -> & Hwhy)
       | [(msg & ev & [= ->] & _)
         | [(i & rest & _ & Hflag & [= ->] & _)
           | (_ & _ & [[=] | (msg & [= ->] & _)])]]].
  - right. left. split; [reflexivity |]. exists path. split; assumption.
  - right. right. right. left. exists msg. reflexivity.
  - right. right. left. split; [reflexivity | exact Hflag].
  - right. right. right. right. exists msg. reflexivity.
Qed.

End DockVariantsClaims.

(** ** Runs on the laboratory host *)

(** Simple docking of one pose: the four scores in the order returned. *)
Example lab_dock_simple :
  fst (@dock_simple lab_host "pdbs/Chimera/4UN3.aaa.pdb" (fresh_world lab_host O))
  = Ret [3000; 2750; 7000; 6750].
Proof. vm_compute. reflexivity. Qed.

(** Simple docking of two variants: four structures loaded, four result
    files opened, in the order of the loops. *)
Example lab_dock_variants :
  fst (@dock_variants lab_host [0; 27] "scores" "pdbs" (PyBool false)
         (fresh_world lab_host O)) = Ret tt
  /\ io_trace
       (w_trace
          (snd (@dock_variants lab_host [0; 27] "scores" "pdbs" (PyBool false)
                  (fresh_world lab_host O))))
     = [ Loaded "pdbs/Chimera/4UN3.aaa.pdb"; Opened "scores/aaa_Chimera.txt";
         Loaded "pdbs/3DNA/4UN3.aaa.pdb"; Opened "scores/aaa_3DNA.txt";
         Loaded "pdbs/Chimera/4UN3.cgt.pdb"; Opened "scores/cgt_Chimera.txt";
         Loaded "pdbs/3DNA/4UN3.cgt.pdb"; Opened "scores/cgt_3DNA.txt" ].
Proof. split; vm_compute; reflexivity. Qed.

(** Structure files that cannot be read: the toolkit's exception ends the
    run at the first pair, on either branch, and no file is opened. *)
Example lab_fails_propagates :
  fst (@dock_variants lab_fails [0; 27] "scores" "pdbs" (PyBool false)
         (fresh_world lab_fails O))
  = Raise (ToolkitError "cannot read pdbs/Chimera/4UN3.aaa.pdb")
  /\ fst (@dock_variants lab_fails [0; 27] "scores" "pdbs" (PyBool true)
            (fresh_world lab_fails O))
     = Raise (ToolkitError "cannot read pdbs/Chimera/4UN3.aaa.pdb")
  /\ io_trace
       (w_trace
          (snd (@dock_variants lab_fails [0; 27] "scores" "pdbs" (PyBool false)
                  (fresh_world lab_fails O))))
     = [Loaded "pdbs/Chimera/4UN3.aaa.pdb"].
Proof. repeat split; vm_compute; reflexivity. Qed.

(** A whole run of the script for the indices 62 and 63: the directory is
    made, the toolkit initialised, and four result files written. *)
Example lab_main :
  fst (@main lab_host (Cmdline (Some 62) (Some 63) (Some "out") None Omitted Omitted)
         (fresh_world lab_host O)) = Ret tt
  /\ dom (w_fs (snd (@main lab_host
                        (Cmdline (Some 62) (Some 63) (Some "out") None Omitted Omitted)
                        (fresh_world lab_host O))))
     = {[ "out/ttg_Chimera.txt"; "out/ttg_3DNA.txt";
          "out/ttt_Chimera.txt"; "out/ttt_3DNA.txt" ]}.
Proof. split; vm_compute; reflexivity. Qed.

(** Two scores only: the file is opened, two lines are written, and reading
    [dock_stats[2]] raises. *)
Example lab_write_dock_stats_short :
  fst (@write_dock_stats lab_host "scores" "aaa_Chimera.txt" [3000; 2750] 1500
         (fresh_world lab_host O)) = Raise IndexError
  /\ count_lines
       (content
          (w_fs (snd (@write_dock_stats lab_host "scores" "aaa_Chimera.txt"
                        [3000; 2750] 1500 (fresh_world lab_host O))))
          "scores/aaa_Chimera.txt") = 2%nat.
Proof. split; vm_compute; reflexivity. Qed.

(** A negative index is taken from the end of [dna_nts], and an index past
    63 raises. *)
Example variant_outside_range :
  variant (-1) = Ret "ttt" /\ variant 64 = Raise IndexError
  /\ variant (-65) = Raise IndexError.
Proof. repeat split. Qed.

(** C4, as stated, fails: with a true flag the run for index 0 loads the
    first structure, raises, and opens no result file, so the second program
    is never reached; hence not every run of [dock_variants] loads and opens
    what the two loops list. *)
Lemma dock_variants_complex_opens_nothing :
  (fst (@dock_variants lab_host [0] "scores" "pdbs" (PyBool true)
          (fresh_world lab_host O)) = Raise (NameError "exception")
   /\ io_trace
        (w_trace
           (snd (@dock_variants lab_host [0] "scores" "pdbs" (PyBool true)
                   (fresh_world lab_host O))))
      = [Loaded "pdbs/Chimera/4UN3.aaa.pdb"]
   /\ w_fs (snd (@dock_variants lab_host [0] "scores" "pdbs" (PyBool true)
                   (fresh_world lab_host O))) = ∅)
  /\ ~ (forall (H : host) (vs : list Z) (ps pp : string) (flag : pyval)
               (w : world),
          exists o w' evs,
            dock_variants vs ps pp flag w = (o, w')
            /\ w_trace w' = w_trace w ++ evs
            /\ io_trace evs = variants_io ps pp vs).
Proof.
  split.
  - repeat split; vm_compute; reflexivity.
  - intros Hall.
    destruct (Hall lab_host [0] "scores" "pdbs" (PyBool true)
                (fresh_world lab_host O)) as (o & w' & evs & Hrun & Ht & Hio).
    apply (f_equal snd) in Hrun. cbn [snd] in Hrun. subst w'.
    vm_compute in Ht. subst evs. vm_compute in Hio. discriminate Hio.
Qed.

Lemma dock_variants_simple_io_witness :
  exists o w' evs,
    @dock_variants lab_host [0; 27] "scores" "pdbs" (PyBool false)
      (fresh_world lab_host O) = (o, w')
    /\ w_trace w' = w_trace (fresh_world lab_host O) ++ evs
    /\ ((o = Ret tt
         /\ io_trace evs = variants_io "scores" "pdbs" [0; 27]
         /\ (forall i program,
               i ∈ [0; 27] -> program ∈ ["Chimera"; "3DNA"] ->
               is_Some (w_fs w'
                        !! os_path_join "scores"
                             [pam_string i +:+ "_" +:+ program +:+ ".txt"])))
        \/ (exists msg ev,
              o = Raise (ToolkitError msg) /\ last evs = Some ev
              /\ @failure lab_host ev = Some msg)).
Proof.
  apply (@dock_variants_simple_io lab_host [0; 27] "scores" "pdbs" (PyBool false)
           (fresh_world lab_host O)).
  - reflexivity.
  - repeat constructor; lia.
Defined.

Lemma complex_flag_raises_first_witness :
  exists e w',
    @dock_variants lab_host [0; 27] "scores" "pdbs" (PyStr "False")
      (fresh_world lab_host O) = (Raise e, w')
    /\ w_fs w' = w_fs (fresh_world lab_host O).
Proof.
  destruct (@complex_flag_raises_first lab_host 0 [27] "scores" "pdbs"
              (PyStr "False") (fresh_world lab_host O) eq_refl)
    as [(e & w' & Hrun & Hfs & _) _].
  exists e, w'. split; [exact Hrun | exact Hfs].
Defined.

(** C7, as stated, fails: the run for the range 5 to 3 ends in the
    [AssertionError] of the script's own [assert], before any call into the
    toolkit, so not every exception is one propagated from the toolkit. *)
Lemma assertion_error_is_not_propagated :
  (@main lab_host (Cmdline (Some 5) (Some 3) None None Omitted Omitted)
     (fresh_world lab_host O)
   = (Raise AssertionError, fresh_world lab_host O)
   /\ w_trace (fresh_world lab_host O) = [])
  /\ ~ (forall (H : host) (c : cmdline) (w : world) e w',
          main c w = (Raise e, w') -> exists msg, e = ToolkitError msg).
Proof.
  split.
  - split; reflexivity.
  - intros Hall.
    destruct (Hall lab_host (Cmdline (Some 5) (Some 3) None None Omitted Omitted)
                (fresh_world lab_host O) AssertionError (fresh_world lab_host O)
                eq_refl) as [msg Hmsg].
    discriminate Hmsg.
Qed.

Lemma main_exceptions_witness :
  (AssertionError = AssertionError
   /\ range_check (parse_args (Cmdline (Some 5) (Some 3) None None Omitted Omitted))
      = false
   /\ fresh_world lab_host O = fresh_world lab_host O)
  \/ (AssertionError = OSError
      /\ exists path,
           @scores_path lab_host
             (parse_args (Cmdline (Some 5) (Some 3) None None Omitted Omitted))
             (fresh_world lab_host O)
           = (Ret path, fresh_world lab_host O)
           /\ (path = ""
               \/ @os_refuses_makedirs lab_host path
                    (w_fs (fresh_world lab_host O))
                    (w_dirs (fresh_world lab_host O)) = true))
  \/ (AssertionError = @complex_not_implemented lab_host
      /\ truthy (a_complex (parse_args (Cmdline (Some 5) (Some 3) None None Omitted Omitted)))
         = true)
  \/ (exists msg, AssertionError = ToolkitError msg)
  \/ (exists msg, AssertionError = ResultsCsvError msg).
Proof.
  apply (@main_exceptions lab_host
           (Cmdline (Some 5) (Some 3) None None Omitted Omitted)
           (fresh_world lab_host O) AssertionError (fresh_world lab_host O)).
  reflexivity.
Defined.


(** * Further properties *)

(** ** Indices outside 0..63 *)

Lemma str_index_outside (k : Z) :
  k < -4 \/ 3 < k -> str_index dna_nts k = Raise IndexError.
Proof.
  intros Hk. unfold str_index.
  change (Z.of_nat (String.length dna_nts)) with 4.
  destruct (k <? 0) eqn:Hneg.
  - apply Z.ltb_lt in Hneg.
    replace (0 <=? k + 4) with false by (symmetry; apply Z.leb_gt; lia).
    reflexivity.
  - apply Z.ltb_ge in Hneg.
    replace (k <? 4) with false by (symmetry; apply Z.ltb_ge; lia).
    rewrite andb_false_r. reflexivity.
Qed.

Lemma str_index_from_end (k : Z) :
  -4 <= k < 0 -> str_index dna_nts k = str_index dna_nts (k + 4).
Proof.
  intros Hk.
  assert (k = -4 \/ k = -3 \/ k = -2 \/ k = -1) as [-> | [-> | [-> | ->]]] by lia;
    reflexivity.
Qed.

Lemma variant_from_end (i : Z) : -64 <= i < 0 -> variant i = variant (i + 64).
Proof.
  intros Hi. unfold variant.
  rewrite (str_index_from_end (i / 16)) by (Z.div_mod_to_equations; lia).
  replace ((i + 64) / 16) with (i / 16 + 4) by (Z.div_mod_to_equations; lia).
  replace ((i + 64) / 4 mod 4) with (i / 4 mod 4) by (Z.div_mod_to_equations; lia).
  replace ((i + 64) mod 4) with (i mod 4) by (Z.div_mod_to_equations; lia).
  reflexivity.
Qed.

Lemma variant_outside (i : Z) : i < -64 \/ 63 < i -> variant i = Raise IndexError.
Proof.
  intros Hi. unfold variant.
  rewrite str_index_outside by (Z.div_mod_to_equations; lia). reflexivity.
Qed.

(** X1. Line 91 raises [IndexError] exactly for the indices below -64 or
    above 63; for every other index it yields a 3-letter string over a, c, g
    and t. *)
Theorem variant_index_error (i : Z) :
  (variant i = Raise IndexError <-> i < -64 \/ 63 < i)
  /\ ((exists s, variant i = Ret s /\ is_pam s = true) <-> -64 <= i <= 63).
Proof.
  assert (-64 <= i <= 63 -> exists s, variant i = Ret s /\ is_pam s = true) as Hin.
  { intros Hi. destruct (Z_lt_ge_dec i 0) as [Hneg | Hpos].
    - exists (pam_string (i + 64)).
      rewrite variant_from_end, variant_pam_string by lia.
      split; [reflexivity | apply is_pam_pam_string; lia].
    - exists (pam_string i). rewrite variant_pam_string by lia.
      split; [reflexivity | apply is_pam_pam_string; lia]. }
  split; split.
  - intros E. destruct (Z_lt_ge_dec i (-64)) as [| Hlo]; [left; assumption |].
    destruct (Z_lt_ge_dec 63 i) as [| Hhi]; [right; assumption |].
    destruct Hin as (s & Hs & _); [lia |]. rewrite Hs in E. discriminate E.
  - apply variant_outside.
  - intros (s & Hs & _).
    destruct (Z_lt_ge_dec i (-64)) as [Hlo |];
      [rewrite variant_outside in Hs by lia; discriminate Hs |].
    destruct (Z_lt_ge_dec 63 i) as [Hhi |];
      [rewrite variant_outside in Hs by lia; discriminate Hs |].
    lia.
  - exact Hin.
Qed.

(** X2. A negative index from -64 to -1 is not rejected: string indexing
    counts it from the end, and line 91 yields the variant of the index
    plus 64. *)
Theorem variant_negative_alias (i : Z) :
  -64 <= i < 0 -> variant i = Ret (pam_string (i + 64)).
Proof.
  intros Hi. rewrite variant_from_end, variant_pam_string by lia. reflexivity.
Qed.

Lemma variant_negative_alias_witness : variant (-1) = Ret (pam_string 63).
Proof. apply (variant_negative_alias (-1)). lia. Defined.

(** ** Runs of [dock_variants] over a list in parts *)

Section DockVariantsParts.
Context `{host}.

Lemma for_each_app {A L} (xs ys : list A) (body : A -> L -> M L) (l : L) w :
  for_each (xs ++ ys) body l w
  = bind (for_each xs body l) (fun l' => for_each ys body l') w.
Proof.
  revert l w. induction xs as [| x xs IH]; intros l w; [reflexivity |].
  cbn [app for_each]. unfold bind in *.
  destruct (body x l w) as [[l1 | e] w1]; [apply IH | reflexivity].
Qed.

(** What the local [dock_stats] held before a pair does not matter: the
    simple branch assigns it before the read, and [dock_complex] raises
    before the read. *)
Lemma dock_program_locals (ps pp : string) (flag : pyval) (v prog : string)
    (ds ds' : option (list pyfloat)) (w : world) :
  dock_program dock_complex ps pp flag v prog ds w
  = dock_program dock_complex ps pp flag v prog ds' w.
Proof.
  unfold dock_program. rewrite !bind_print, !bind_time. unfold bind.
  destruct (pose_from_pdb _ _) as [[p | e] w1]; [| reflexivity].
  destruct (truthy flag); [reflexivity |].
  destruct (dock_simple p w1) as [[l | e] w2]; reflexivity.
Qed.

Lemma dock_variant_locals (ps pp : string) (flag : pyval) (i : Z)
    (ds ds' : option (list pyfloat)) (w : world) :
  dock_variant dock_complex ps pp flag i ds w
  = dock_variant dock_complex ps pp flag i ds' w.
Proof.
  unfold dock_variant, programs. cbn [for_each].
  destruct (variant i) as [v | e]; [| reflexivity].
  rewrite !bind_lift_Ret. unfold bind.
  rewrite (dock_program_locals ps pp flag v "Chimera" ds ds'). reflexivity.
Qed.

(** The value a run of the outer loop returns is dropped by
    [dock_variants]; up to it, the run does not depend on the locals it
    starts from. *)
Lemma for_each_variants_locals (ps pp : string) (flag : pyval) (vs : list Z)
    (ds ds' : option (list pyfloat)) (w : world) :
  bind (for_each vs (dock_variant dock_complex ps pp flag) ds) (fun _ => ret tt) w
  = bind (for_each vs (dock_variant dock_complex ps pp flag) ds') (fun _ => ret tt) w.
Proof.
  destruct vs as [| i vs]; [reflexivity |].
  cbn [for_each]. unfold bind.
  rewrite (dock_variant_locals ps pp flag i ds ds'). reflexivity.
Qed.

(** X3. One run of [dock_variants] over a list is the run over its first
    part followed, if that returns, by the run over the rest, from the world
    the first left: same outcome, same files, same output, same calls. *)
Theorem dock_variants_app (vs vs' : list Z) (ps pp : string) (flag : pyval)
    (w : world) :
  dock_variants (vs ++ vs') ps pp flag w
  = bind (dock_variants vs ps pp flag) (fun _ => dock_variants vs' ps pp flag) w.
Proof.
  unfold dock_variants, dock_variants_with.
  unfold bind at 1. rewrite for_each_app.
  pose proof (for_each_variants_locals ps pp flag vs') as Hlocals.
  unfold bind in *.
  destruct (for_each vs _ None w) as [[l | e] w1]; [| reflexivity].
  cbn [ret]. apply (Hlocals l None w1).
Qed.

(** X4. An index below -64 or above 63 ends the run in [IndexError] when the
    loop reaches it: the indices before it have been processed as in a run
    over them alone, nothing is printed, called or written for the bad index,
    and the indices after it are never reached. *)
Theorem dock_variants_stops_at_bad_index (vs : list Z) (i : Z) (rest : list Z)
    (ps pp : string) (flag : pyval) (w : world) :
  i < -64 \/ 63 < i ->
  dock_variants (vs ++ i :: rest) ps pp flag w
  = match dock_variants vs ps pp flag w with
    | (Ret _, w1) => (Raise IndexError, w1)
    | (Raise e, w1) => (Raise e, w1)
    end.
Proof.
  intros Hi. unfold dock_variants, dock_variants_with.
  unfold bind at 1. rewrite for_each_app. unfold bind.
  destruct (for_each vs _ None w) as [[l | e] w1]; [| reflexivity].
  cbn [for_each]. unfold dock_variant at 1, bind.
  rewrite (variant_outside i Hi). reflexivity.
Qed.

(** X5. With a true flag [dock_variants] returns exactly when there is no
    index to process; then it leaves the world as it was. *)
Theorem dock_variants_complex_returns_iff_empty (vs : list Z) (ps pp : string)
    (flag : pyval) (w : world) :
  truthy flag = true ->
  ((exists w', dock_variants vs ps pp flag w = (Ret tt, w')) <-> vs = [])
  /\ (vs = [] -> dock_variants vs ps pp flag w = (Ret tt, w)).
Proof.
  intros Hflag. split; [split |].
  - intros [w' E]. destruct vs as [| i vs]; [reflexivity |].
    unfold dock_variants in E.
    rewrite (dock_variants_complex_first _ _ _ _ _ _ _ Hflag) in E.
    destruct (variant i) as [v | e]; [| discriminate E].
    cbv zeta in E. destruct (tk_pose_from_pdb _ _) as [[p | msg] s];
      discriminate E.
  - intros ->. exists w. reflexivity.
  - intros ->. reflexivity.
Qed.

End DockVariantsParts.

Lemma dock_variants_stops_at_bad_index_witness :
  @dock_variants lab_host ([0] ++ 64 :: [1]) "scores" "pdbs" (PyBool false)
    (fresh_world lab_host O)
  = match @dock_variants lab_host [0] "scores" "pdbs" (PyBool false)
            (fresh_world lab_host O) with
    | (Ret _, w1) => (Raise IndexError, w1)
    | (Raise e, w1) => (Raise e, w1)
    end.
Proof.
  apply (@dock_variants_stops_at_bad_index lab_host [0] 64 [1]). lia.
Defined.

Lemma dock_variants_complex_returns_iff_empty_witness :
  @dock_variants lab_host [] "scores" "pdbs" (PyStr "False")
    (fresh_world lab_host O) = (Ret tt, fresh_world lab_host O).
Proof.
  apply (@dock_variants_complex_returns_iff_empty lab_host [] "scores" "pdbs"
           (PyStr "False") (fresh_world lab_host O) eq_refl).
  reflexivity.
Defined.

(** ** The names of the result files *)

Lemma append_inj_l (a b c : string) : a +:+ b = a +:+ c -> b = c.
Proof.
  induction a as [| x a IH]; intros E; [exact E |].
  change (String x (a +:+ b) = String x (a +:+ c)) in E.
  injection E as E. apply IH, E.
Qed.

(** What [os.path.join] puts before a component that does not start with a
    slash. *)
Lemma join_step_relative (path b : string) :
  starts_with_sep b = false ->
  join_step path b
  = (if String.eqb path "" || ends_with_sep path then path else path +:+ "/") +:+ b.
Proof.
  intros Hb. unfold join_step. rewrite Hb.
  destruct (String.eqb path "" || ends_with_sep path); [reflexivity |].
  rewrite append_assoc. reflexivity.
Qed.

Lemma variant_Ret_is_pam (i : Z) (v : string) :
  variant i = Ret v -> is_pam v = true.
Proof.
  intros E.
  destruct (Z_lt_ge_dec i (-64)) as [Hlo | Hlo];
    [rewrite variant_outside in E by lia; discriminate E |].
  destruct (Z_lt_ge_dec 63 i) as [Hhi | Hhi];
    [rewrite variant_outside in E by lia; discriminate E |].
  destruct (Z_lt_ge_dec i 0) as [Hneg | Hpos].
  - rewrite variant_from_end, variant_pam_string in E by lia.
    injection E as <-. apply is_pam_pam_string. lia.
  - rewrite variant_pam_string in E by lia.
    injection E as <-. apply is_pam_pam_string. lia.
Qed.

Lemma is_nt_not_sep (c : ascii) : is_nt c = true -> Ascii.eqb c "/" = false.
Proof.
  unfold is_nt. intros Hc.
  repeat (apply orb_prop in Hc as [Hc | Hc]);
    apply Ascii.eqb_eq in Hc; subst c; reflexivity.
Qed.

(** A result file's path gives back the variant string and the program. *)
Lemma result_path_inj (ps v v' program program' : string) :
  is_pam v = true -> is_pam v' = true ->
  program ∈ programs -> program' ∈ programs ->
  os_path_join ps [v +:+ "_" +:+ program +:+ ".txt"]
  = os_path_join ps [v' +:+ "_" +:+ program' +:+ ".txt"] ->
  v = v' /\ program = program'.
Proof.
  intros Hpam Hpam' Hp Hp' E.
  destruct v as [| a [| b [| c [| ? ?]]]]; try discriminate Hpam.
  destruct v' as [| a' [| b' [| c' [| ? ?]]]]; try discriminate Hpam'.
  cbn [is_pam] in Hpam, Hpam'.
  apply andb_prop in Hpam as [Hab Hc]. apply andb_prop in Hab as [Ha Hb].
  apply andb_prop in Hpam' as [Hab' Hc']. apply andb_prop in Hab' as [Ha' Hb'].
  unfold os_path_join in E. cbn [fold_left] in E.
  rewrite !join_step_relative in E
    by (apply is_nt_not_sep; assumption).
  apply append_inj_l in E.
  change (String a (String b (String c ("_" +:+ program +:+ ".txt")))
          = String a' (String b' (String c' ("_" +:+ program' +:+ ".txt")))) in E.
  injection E as -> -> -> E.
  split; [reflexivity |].
  unfold programs in Hp, Hp'.
  apply elem_of_cons in Hp as [-> | Hp];
    [| apply list_elem_of_singleton in Hp as ->];
    (apply elem_of_cons in Hp' as [-> | Hp'];
     [| apply list_elem_of_singleton in Hp' as ->]);
    first [reflexivity | discriminate E].
Qed.

(** X6. Two (variant, program) pairs that [dock_variants] writes to the same
    result file in a directory are the same pair: the file name determines
    the variant string and the program, and so, for indices from 0 to 63,
    the index. *)
Theorem result_files_distinct (path_to_scores : string) (i j : Z)
    (v v' program program' : string) :
  variant i = Ret v -> variant j = Ret v' ->
  program ∈ programs -> program' ∈ programs ->
  os_path_join path_to_scores [v +:+ "_" +:+ program +:+ ".txt"]
  = os_path_join path_to_scores [v' +:+ "_" +:+ program' +:+ ".txt"] ->
  v = v' /\ program = program'
  /\ (0 <= i <= 63 -> 0 <= j <= 63 -> i = j).
Proof.
  intros Hv Hv' Hp Hp' E.
  destruct (result_path_inj path_to_scores v v' program program'
              (variant_Ret_is_pam i v Hv) (variant_Ret_is_pam j v' Hv') Hp Hp' E)
    as [-> ->].
  split; [reflexivity |]. split; [reflexivity |].
  intros Hi Hj. rewrite (variant_pam_string i Hi) in Hv.
  rewrite (variant_pam_string j Hj) in Hv'.
  apply pam_string_inj; [assumption | assumption | congruence].
Qed.

Lemma result_files_distinct_witness :
  "aaa" = "aaa" /\ "Chimera" = "Chimera"
  /\ (0 <= 0 <= 63 -> 0 <= 0 <= 63 -> 0 = 0).
Proof.
  apply (result_files_distinct "scores" 0 0 "aaa" "aaa" "Chimera" "Chimera");
    try reflexivity; apply elem_of_cons; left; reflexivity.
Defined.

(** ** Files only grow, by five lines per write *)

Lemma append_nil_r (s : string) : s +:+ "" = s.
Proof.
  induction s as [| x s IH]; [reflexivity |].
  change (String x (s +:+ "") = String x s). rewrite IH. reflexivity.
Qed.

Lemma times_opened_app (path : string) (l1 l2 : list io) :
  times_opened path (l1 ++ l2)
  = (times_opened path l1 + times_opened path l2)%nat.
Proof.
  induction l1 as [| [p | p] l1 IH]; cbn [app times_opened];
    [reflexivity | exact IH | rewrite IH; lia].
Qed.

Section FivePerOpen.
Context `{host}.

Lemma five_per_open_frame (w w' : world) (evs : list event) :
  w_fs w' = w_fs w ->
  (forall path, times_opened path (io_trace evs) = O) ->
  five_per_open w w' evs.
Proof.
  intros Hfs Hio path. exists "". rewrite Hfs, Hio, append_nil_r.
  repeat split.
Qed.

Lemma five_per_open_trans (w1 w2 w3 : world) (evs1 evs2 : list event) :
  five_per_open w1 w2 evs1 -> five_per_open w2 w3 evs2 ->
  five_per_open w1 w3 (evs1 ++ evs2).
Proof.
  intros H12 H23 path.
  destruct (H12 path) as (a1 & Hc1 & Hn1 & Hz1), (H23 path) as (a2 & Hc2 & Hn2 & Hz2).
  exists (a1 +:+ a2). split; [| split].
  - rewrite Hc2, Hc1, append_assoc. reflexivity.
  - rewrite count_lines_append, io_trace_app, times_opened_app, Hn1, Hn2. lia.
  - rewrite io_trace_app, times_opened_app. intros Hz.
    rewrite Hz1, Hz2 by lia. reflexivity.
Qed.

Lemma keeps_five_refl (w : world) : keeps_five w w.
Proof.
  exists []. split; [rewrite app_nil_r; reflexivity |].
  apply five_per_open_frame; [reflexivity | intros path; reflexivity].
Qed.

Lemma keeps_five_trans (w1 w2 w3 : world) :
  keeps_five w1 w2 -> keeps_five w2 w3 -> keeps_five w1 w3.
Proof.
  intros (evs1 & Ht1 & H1) (evs2 & Ht2 & H2). exists (evs1 ++ evs2).
  split; [rewrite Ht2, Ht1, app_assoc; reflexivity |].
  eapply five_per_open_trans; eassumption.
Qed.

Lemma for_each_keeps_five {A L} (body : A -> L -> M L) :
  (forall x l w o w', body x l w = (o, w') -> keeps_five w w') ->
  forall xs l w o w', for_each xs body l w = (o, w') -> keeps_five w w'.
Proof.
  intros Hbody. induction xs as [| x xs IH]; intros l w o w' E.
  - injection E as <- <-. apply keeps_five_refl.
  - cbn [for_each] in E.
    apply bind_inv in E as [(l1 & w1 & E1 & E) | (e & E & ->)].
    + eapply keeps_five_trans; [eapply Hbody, E1 | eapply IH, E].
    + eapply Hbody, E.
Qed.

Lemma dock_program_keeps_five (ps pp : string) (flag : pyval) (v prog : string)
    (ds : option (list pyfloat)) (w : world) o w' :
  single_line_format ->
  dock_program dock_complex ps pp flag v prog ds w = (o, w') ->
  keeps_five w w'.
Proof.
  intros Hfmt E. unfold dock_program in E.
  rewrite bind_print, bind_time in E. unfold pose_from_pdb in E.
  run_call E.
  2: { eexists. split; [cbn; reflexivity |].
       apply five_per_open_frame; [reflexivity | intros path; reflexivity]. }
  destruct (truthy flag).
  { unfold dock_complex, raise, bind in E. injection E as <- <-.
    eexists. split; [cbn; reflexivity |].
    apply five_per_open_frame; [reflexivity | intros path; reflexivity]. }
  apply bind_inv in E as [(ds' & w2 & E1 & E) | (e & E & ->)].
  2: { apply bind_inv in E as [(l & w3 & E1 & E) | (e' & E & _)];
         [discriminate E |].
       apply dock_simple_run in E as ((Hfs & _) & evs & Ht & Hio & _).
       eexists. split; [rewrite Ht; cbn; rewrite <- app_assoc; reflexivity |].
       apply five_per_open_frame; [exact Hfs |].
       intros path. rewrite io_trace_app, Hio. reflexivity. }
  apply bind_inv in E1 as [(l & w3 & E1 & E2) | (e' & _ & [=])].
  injection E2 as <- <-.
  apply dock_simple_run in E1
    as ((Hfs & _) & evs & Ht & Hio & [(fa & dna & d & f0 & f1 & f2 & f3 & [= ->] & _)
                                     | (msg & ev & [=] & _)]).
  rewrite bind_time in E. cbn [read_local] in E. rewrite bind_ret in E.
  rewrite (bind_Ret _ _ _ _ _ (write_dock_stats_run _ _ _ _ _ _ _ _ _)) in E.
  rewrite bind_print in E. injection E as <- <-.
  unfold printed, tick, after_call in *. cbn [w_fs w_trace] in *.
  eexists. split; [rewrite Ht; rewrite <- !app_assoc; reflexivity |].
  intros path. cbn [w_fs].
  rewrite !io_trace_app, Hio.
  set (rp := os_path_join ps [v +:+ "_" +:+ prog +:+ ".txt"]).
  destruct (String.eqb_spec rp path) as [<- | Hne].
  - exists (concat_lines
              (stats_lines f0 f1 f2 f3
                 (float_sub (clock_time (w_clock w3)) (clock_time (w_clock w))))).
    split; [rewrite content_insert, Hfs; reflexivity |].
    destruct (stats_lines_count f0 f1 f2 f3
                (float_sub (clock_time (w_clock w3)) (clock_time (w_clock w)))
                Hfmt) as [_ ->].
    cbn [io_trace flat_map io_of app times_opened].
    rewrite String.eqb_refl. split; [reflexivity | discriminate].
  - exists "". rewrite content_insert_ne by exact Hne.
    rewrite Hfs, append_nil_r. split; [reflexivity |].
    cbn [io_trace flat_map io_of app times_opened].
    destruct (String.eqb_spec rp path); [contradiction | split; reflexivity].
Qed.

Lemma dock_variant_keeps_five (ps pp : string) (flag : pyval) (i : Z)
    (ds : option (list pyfloat)) (w : world) o w' :
  single_line_format ->
  dock_variant dock_complex ps pp flag i ds w = (o, w') -> keeps_five w w'.
Proof.
  intros Hfmt E. unfold dock_variant in E.
  destruct (variant i) as [v | e].
  - rewrite bind_lift_Ret in E.
    eapply (for_each_keeps_five (dock_program dock_complex ps pp flag v));
      [| exact E].
    intros prog l w0 o0 w0'. apply dock_program_keeps_five, Hfmt.
  - injection E as <- <-. apply keeps_five_refl.
Qed.

(** X7. Whatever the flag, the indices and the outcome, a run of
    [dock_variants] only appends: every file holds afterwards what it held
    before, followed by five lines for each time the run opened it (given a
    conversion that prints no line feed).  So nothing is truncated or
    deleted, and a file the run did not open is unchanged. *)
Theorem dock_variants_five_lines_per_open (pam_variants : list Z)
    (path_to_scores path_to_pdbs : string) (complex_docking_flag : pyval)
    (w : world) :
  single_line_format ->
  exists o w' evs,
    dock_variants pam_variants path_to_scores path_to_pdbs complex_docking_flag w
    = (o, w')
    /\ w_trace w' = w_trace w ++ evs
    /\ forall path, exists added,
         content (w_fs w') path = content (w_fs w) path +:+ added
         /\ count_lines added = (5 * times_opened path (io_trace evs))%nat
         /\ (times_opened path (io_trace evs) = O -> added = "").
Proof.
  intros Hfmt.
  destruct (dock_variants pam_variants path_to_scores path_to_pdbs
              complex_docking_flag w) as [o w'] eqn:E.
  exists o, w'. unfold dock_variants, dock_variants_with in E.
  assert (keeps_five w w') as (evs & Ht & Hfive).
  { apply bind_inv in E as [(l & w1 & E1 & E) | (e & E & ->)].
    - injection E as <- <-.
      eapply for_each_keeps_five; [| exact E1].
      intros i l0 w0 o0 w0'. apply dock_variant_keeps_five, Hfmt.
    - eapply for_each_keeps_five; [| exact E].
      intros i l0 w0 o0 w0'. apply dock_variant_keeps_five, Hfmt. }
  exists evs. split; [reflexivity |]. split; [exact Ht | exact Hfive].
Qed.

End FivePerOpen.

Lemma dock_variants_five_lines_per_open_witness :
  exists o w' evs,
    @dock_variants lab_host [0; 0] "scores" "pdbs" (PyBool false)
      (fresh_world lab_host O) = (o, w')
    /\ w_trace w' = w_trace (fresh_world lab_host O) ++ evs
    /\ forall path, exists added,
         content (w_fs w') path
         = content (w_fs (fresh_world lab_host O)) path +:+ added
         /\ count_lines added = (5 * times_opened path (io_trace evs))%nat
         /\ (times_opened path (io_trace evs) = O -> added = "").
Proof.
  apply (@dock_variants_five_lines_per_open lab_host [0; 0] "scores" "pdbs"
           (PyBool false) (fresh_world lab_host O)).
  exact lab_single_line.
Defined.

(** ** Fewer than four scores *)

Section ShortStats.
Context `{host}.

(** X8. With fewer than four scores [write_dock_stats] raises [IndexError],
    but only after it has opened the file (creating it if need be) and
    written a line for each score there is: the file is left with its
    former content, these score lines and no time line. *)
Theorem write_dock_stats_short (score_directory filename : string)
    (dock_stats : list pyfloat) (time_diff : pyfloat) (w : world) :
  (length dock_stats < 4)%nat ->
  exists w',
    write_dock_stats score_directory filename dock_stats time_diff w
    = (Raise IndexError, w')
    /\ w_fs w'
       = <[os_path_join score_directory [filename] :=
             content (w_fs w) (os_path_join score_directory [filename])
             +:+ concat_lines (score_lines dock_stats)]> (w_fs w)
    /\ length (score_lines dock_stats) = length dock_stats
    /\ w_trace w'
       = w_trace w ++ [ev_open_append (os_path_join score_directory [filename])].
Proof.
  intros Hlen. unfold write_dock_stats.
  generalize (os_path_join score_directory [filename]) as path. intros path.
  destruct dock_stats as [| x0 [| x1 [| x2 [| x3 rest]]]];
    [| | | | cbn [length] in Hlen; lia];
    (eexists; split;
     [ unfold bind, open_append, lift, list_index, file_write, log_event, set_fs;
       cbn [lookup list_lookup w_fs w_toolkit w_dirs w_stdout w_trace w_clock];
       reflexivity
     | cbn [w_fs w_trace]; rewrite ?content_insert, ?insert_insert_eq;
       unfold score_lines, score_labels, concat_lines;
       cbn [zip_with fold_right length];
       rewrite ?append_assoc, ?append_nil_r; repeat split ]).
Qed.

End ShortStats.

Lemma write_dock_stats_short_witness :
  exists w',
    @write_dock_stats lab_host "scores" "aaa_Chimera.txt" [3000; 2750] 1500
      (fresh_world lab_host O) = (Raise IndexError, w')
    /\ content (w_fs w') "scores/aaa_Chimera.txt"
       = concat_lines
           [ "Initial DNA score:    3.000" +:+ nl;
             "Final DNA Score:    2.750" +:+ nl ].
Proof.
  destruct (@write_dock_stats_short lab_host "scores" "aaa_Chimera.txt"
              [3000; 2750] 1500 (fresh_world lab_host O))
    as (w' & Hrun & Hfs & _); [cbn [length]; lia |].
  exists w'. split; [exact Hrun |]. rewrite Hfs. reflexivity.
Defined.

(** ** The entry point with complex docking selected *)

Section MainComplex.
Context `{host}.


(** X12. With the empty output path of [-o ''] and a range that passes
    the check, every run ends in the [OSError] of [os.makedirs], whatever
    the files, the toolkit and the other options: nothing exists at the
    empty path, so the directory is to be made, and it cannot be.  Nothing
    has happened by then. *)
Theorem main_empty_output_dir (c : cmdline) (w : world) :
  range_check (parse_args c) = true ->
  cl_output_dir c = Some "" ->
  main c w = (Raise OSError, w).
Proof.
  intros Hc Hout.
  apply range_check_true in Hc as (s & e0 & Hs & He & Hr).
  destruct (main_in_range c w s e0 Hs He Hr) as [_ Hmain].
  rewrite Hmain. unfold score_variants, scores_path.
  cbn [parse_args a_output_dir]. rewrite Hout. reflexivity.
Qed.

End MainComplex.


Lemma main_empty_output_dir_witness :
  @main lab_host (Cmdline (Some 0) (Some 63) (Some "") None Omitted Omitted)
    (fresh_world lab_host O)
  = (Raise OSError, fresh_world lab_host O).
Proof.
  apply (@main_empty_output_dir lab_host
           (Cmdline (Some 0) (Some 63) (Some "") None Omitted Omitted)
           (fresh_world lab_host O)); reflexivity.
Defined.

(** ** What simple docking leaves alone *)

Section DockSimpleFrame.
Context `{host}.

Lemma dock_simple_calls_bound (p : pose) (w : world) o w' :
  dock_simple p w = (o, w') ->
  exists evs, w_trace w' = w_trace w ++ evs /\ (length evs <= 12)%nat.
Proof.
  intros E. unfold dock_simple in E.
  do 12 (run_call E;
    [| eexists; split; [cbn; rewrite <- ?app_assoc; reflexivity |];
       cbn [length app]; lia ]).
  inversion E; subst; clear E.
  eexists; split; [cbn; rewrite <- ?app_assoc; reflexivity |].
  cbn [length app]. lia.
Qed.

(** X10. [dock_simple] works through the toolkit only: whatever its outcome,
    the files, the directories, the standard output and the clock are as
    before, it has loaded no structure and opened no file, and it has made
    at most twelve toolkit calls. *)
Theorem dock_simple_toolkit_only (p : pose) (w : world) :
  exists o w' evs,
    dock_simple p w = (o, w')
    /\ w_trace w' = w_trace w ++ evs
    /\ (length evs <= 12)%nat
    /\ io_trace evs = []
    /\ w_fs w' = w_fs w /\ w_dirs w' = w_dirs w /\ w_stdout w' = w_stdout w
    /\ w_clock w' = w_clock w.
Proof.
  destruct (dock_simple p w) as [o w'] eqn:E.
  destruct (dock_simple_run p w o w' E) as (Hframe & evs & Ht & Hio & _).
  destruct (dock_simple_calls_bound p w o w' E) as (evs' & Ht' & Hlen).
  assert (evs' = evs) as -> by (rewrite Ht in Ht'; apply app_inv_head in Ht'; congruence).
  exists o, w', evs. split; [reflexivity |]. split; [exact Ht |].
  split; [exact Hlen |]. split; [exact Hio | exact Hframe].
Qed.

End DockSimpleFrame.

(** ** Five lines in every result file *)

Section FiveLinesEach.
Context `{host}.

(** The pairs of one index open the result file of a pair once if it is a
    pair of that index, and not at all otherwise. *)
Lemma times_opened_pairs (ps pp : string) (i j : Z) (prog : string) :
  0 <= i <= 63 -> 0 <= j <= 63 -> prog ∈ programs ->
  times_opened (os_path_join ps [pam_string i +:+ "_" +:+ prog +:+ ".txt"])
    (flat_map (pair_io ps pp (pam_string j)) programs)
  = if decide (j = i) then 1%nat else 0%nat.
Proof.
  intros Hi Hj Hprog.
  assert (forall prog',
            prog' ∈ programs ->
            os_path_join ps [pam_string j +:+ "_" +:+ prog' +:+ ".txt"]
            = os_path_join ps [pam_string i +:+ "_" +:+ prog +:+ ".txt"] ->
            j = i /\ prog' = prog) as Hinj.
  { intros prog' Hprog' E.
    destruct (result_path_inj ps _ _ _ _ (is_pam_pam_string j Hj)
                (is_pam_pam_string i Hi) Hprog' Hprog E) as [Hv ->].
    split; [apply pam_string_inj; assumption | reflexivity]. }
  assert ("Chimera" ∈ programs) as Hc by (apply elem_of_cons; left; reflexivity).
  assert ("3DNA" ∈ programs) as Hd
    by (apply elem_of_cons; right; apply list_elem_of_singleton; reflexivity).
  unfold programs. cbn [flat_map pair_io app times_opened].
  destruct (String.eqb_spec
              (os_path_join ps [pam_string j +:+ "_" +:+ "Chimera" +:+ ".txt"])
              (os_path_join ps [pam_string i +:+ "_" +:+ prog +:+ ".txt"]))
    as [E1 | N1];
    destruct (String.eqb_spec
                (os_path_join ps [pam_string j +:+ "_" +:+ "3DNA" +:+ ".txt"])
                (os_path_join ps [pam_string i +:+ "_" +:+ prog +:+ ".txt"]))
      as [E2 | N2].
  - destruct (Hinj _ Hc E1) as [_ <-]. destruct (Hinj _ Hd E2) as [_ [=]].
  - destruct (Hinj _ Hc E1) as [-> _]. rewrite decide_True by reflexivity.
    reflexivity.
  - destruct (Hinj _ Hd E2) as [-> _]. rewrite decide_True by reflexivity.
    reflexivity.
  - destruct (decide (j = i)) as [-> | Hne]; [| reflexivity].
    unfold programs in Hprog.
    apply elem_of_cons in Hprog as [-> | Hprog];
      [contradiction N1; reflexivity |].
    apply list_elem_of_singleton in Hprog as ->. contradiction N2; reflexivity.
Qed.

Lemma times_opened_variants_absent (ps pp : string) (vs : list Z) (i : Z)
    (prog : string) :
  0 <= i <= 63 -> prog ∈ programs -> Forall (fun j => 0 <= j <= 63) vs ->
  i ∉ vs ->
  times_opened (os_path_join ps [pam_string i +:+ "_" +:+ prog +:+ ".txt"])
    (variants_io ps pp vs) = O.
Proof.
  intros Hi Hprog Hvs. induction Hvs as [| j vs Hj Hvs IH]; intros Hnotin;
    [reflexivity |].
  apply not_elem_of_cons in Hnotin as [Hne Hnotin].
  unfold variants_io. cbn [flat_map]. rewrite times_opened_app.
  rewrite (times_opened_pairs ps pp i j prog Hi Hj Hprog).
  rewrite decide_False by congruence.
  apply IH, Hnotin.
Qed.

Lemma times_opened_variants_once (ps pp : string) (vs : list Z) (i : Z)
    (prog : string) :
  prog ∈ programs -> Forall (fun j => 0 <= j <= 63) vs -> NoDup vs -> i ∈ vs ->
  times_opened (os_path_join ps [pam_string i +:+ "_" +:+ prog +:+ ".txt"])
    (variants_io ps pp vs) = 1%nat.
Proof.
  intros Hprog Hvs. induction Hvs as [| j vs Hj Hvs IH]; intros Hnd Hin.
  - apply elem_of_nil in Hin. contradiction.
  - apply NoDup_cons in Hnd as [Hjnotin Hnd].
    unfold variants_io. cbn [flat_map]. rewrite times_opened_app.
    apply elem_of_cons in Hin as [-> | Hin].
    + rewrite (times_opened_pairs ps pp j j prog Hj Hj Hprog).
      rewrite decide_True by reflexivity.
      fold (variants_io ps pp vs).
      rewrite (times_opened_variants_absent ps pp vs j prog Hj Hprog Hvs Hjnotin).
      reflexivity.
    + assert (0 <= i <= 63) as Hi
        by (rewrite Forall_forall in Hvs; apply Hvs, Hin).
      rewrite (times_opened_pairs ps pp i j prog Hi Hj Hprog).
      rewrite decide_False by (intros ->; contradiction).
      apply IH; assumption.
Qed.

(** X11. Simple docking of distinct indices from 0 to 63, given a conversion
    that prints no line feed: unless a toolkit call fails, the run returns
    and every result file, for each index and each of the two programs,
    holds what it held before followed by exactly five lines. *)
Theorem dock_variants_five_lines_each (pam_variants : list Z)
    (path_to_scores path_to_pdbs : string) (complex_docking_flag : pyval)
    (w : world) :
  single_line_format ->
  truthy complex_docking_flag = false ->
  NoDup pam_variants ->
  Forall (fun i => 0 <= i <= 63) pam_variants ->
  exists o w' evs,
    dock_variants pam_variants path_to_scores path_to_pdbs complex_docking_flag w
    = (o, w')
    /\ w_trace w' = w_trace w ++ evs
    /\ ((o = Ret tt
         /\ forall i program,
              i ∈ pam_variants -> program ∈ programs ->
              exists added,
                content (w_fs w')
                  (os_path_join path_to_scores
                     [pam_string i +:+ "_" +:+ program +:+ ".txt"])
                = content (w_fs w)
                    (os_path_join path_to_scores
                       [pam_string i +:+ "_" +:+ program +:+ ".txt"])
                  +:+ added
                /\ count_lines added = 5%nat)
        \/ (exists msg ev,
              o = Raise (ToolkitError msg) /\ last evs = Some ev
              /\ failure ev = Some msg)).
Proof.
  intros Hfmt Hflag Hnd Hvs.
  destruct (dock_variants pam_variants path_to_scores path_to_pdbs
              complex_docking_flag w) as [o w'] eqn:E.
  exists o, w'. unfold dock_variants, dock_variants_with in E.
  apply bind_inv in E as [(ds & w1 & E1 & E) | (e & E & ->)].
  - injection E as <- <-.
    assert (keeps_five w w1) as (evs & Ht & Hfive).
    { eapply for_each_keeps_five; [| exact E1].
      intros i l0 w0 o0 w0'. apply dock_variant_keeps_five, Hfmt. }
    apply (variants_simple _ _ _ _ _ Hflag Hvs) in E1
      as (_ & evs' & Ht' & [(ds' & _ & Hio & _) | Hfail]);
      [| destruct (toolkit_failure_Ret _ _ Hfail)].
    assert (evs' = evs) as ->
      by (rewrite Ht in Ht'; apply app_inv_head in Ht'; congruence).
    exists evs. split; [reflexivity |]. split; [exact Ht |].
    left. split; [reflexivity |]. intros i program Hi Hprogram.
    destruct (Hfive (os_path_join path_to_scores
                       [pam_string i +:+ "_" +:+ program +:+ ".txt"]))
      as (added & Hcontent & Hcount & _).
    exists added. split; [exact Hcontent |].
    rewrite Hcount, Hio.
    rewrite (times_opened_variants_once _ _ _ _ _ Hprogram Hvs Hnd Hi).
    reflexivity.
  - apply (variants_simple _ _ _ _ _ Hflag Hvs) in E
      as (_ & evs & Ht & [(ds' & [=] & _) | (msg & ev & [= ->] & Hl & Hf)]).
    exists evs. split; [reflexivity |]. split; [exact Ht |].
    right. exists msg, ev. repeat split; assumption.
Qed.

End FiveLinesEach.

Lemma dock_variants_five_lines_each_witness :
  exists o w' evs,
    @dock_variants lab_host [0; 27] "scores" "pdbs" (PyBool false)
      (fresh_world lab_host O) = (o, w')
    /\ w_trace w' = w_trace (fresh_world lab_host O) ++ evs
    /\ ((o = Ret tt
         /\ forall i program,
              i ∈ [0; 27] -> program ∈ programs ->
              exists added,
                content (w_fs w')
                  (os_path_join "scores"
                     [pam_string i +:+ "_" +:+ program +:+ ".txt"])
                = content (w_fs (fresh_world lab_host O))
                    (os_path_join "scores"
                       [pam_string i +:+ "_" +:+ program +:+ ".txt"])
                  +:+ added
                /\ count_lines added = 5%nat)
        \/ (exists msg ev,
              o = Raise (ToolkitError msg) /\ last evs = Some ev
              /\ @failure lab_host ev = Some msg)).
Proof.
  apply (@dock_variants_five_lines_each lab_host [0; 27] "scores" "pdbs"
           (PyBool false) (fresh_world lab_host O)).
  - exact lab_single_line.
  - reflexivity.
  - repeat constructor; set_unfold; lia.
  - repeat constructor; lia.
Defined.
